(** * FrameView: layer decomposition, hit testing and replay injection

    A shallow embedding of [src/platform/qt/FrameView.cpp] (mGBA's frame
    inspector).  The view keeps a queue of layers rebuilt from the paused
    live core, a set of layers the operator switched off, one active
    (highlighted) layer, and a second core that replays the video log of
    one frame with suppression and highlight directives injected.

    Conventions.
    - C++ [int] is [Z]; the one place where the code shifts an [int]
      ([index << 2]) has its 32-bit wrap-around written out.
    - [QPointF] coordinates are rationals: every coordinate the file
      stores is an integer ([updateTilesGBA]) and a click position is a
      quotient of integers, so [double] arithmetic is exact on them.
      Conversion to [int] truncates toward zero.
    - [QSet<LayerId>] is a [gset]; [QList<Layer>] is a [list] indexed with
      stdpp's lookup and insert; the renderer's [bool] arrays are lists
      of their declared length.
    - The member functions become state transformers on the record
      [FrameView]; what the live core exposes while it is interrupted is
      the record [CoreController].
    - The replay core is outside the file: it is the log it was loaded
      with and the list of calls made on it; the class [Collaborators]
      gathers the constants and functions taken from mGBA's headers, the
      toolkit and the core. *)

From Stdlib Require Import ZArith QArith Lia.
From stdpp Require Import base decidable countable gmap list strings pretty sorting.

Close Scope Q_scope.
Local Open Scope Z_scope.
Set Warnings "-clear-no-such-hyp".

(** ** Qt geometry *)

Module QPoint.
Record t := mk { x : Z; y : Z }.
End QPoint.

Module QPointF.
Record t := mk { x : Q; y : Q }.
(** [QPointF(int, int)] *)
Definition ofInts (a b : Z) : t := mk (inject_Z a) (inject_Z b).
End QPointF.

Module QSize.
Record t := mk { width : Z; height : Z }.
Definition isValid (s : t) : bool := (0 <=? width s) && (0 <=? height s).
(** [QSize operator*(const QSize&, int)] *)
Definition times (s : t) (k : Z) : t := mk (width s * k) (height s * k).
End QSize.

(** Conversion of a [double] to [int]: the fractional part is dropped. *)
Definition toInt (q : Q) : Z := Z.quot (Qnum q) (Zpos (Qden q)).

(** [a < b] on rationals, as a boolean. *)
Definition Qltb (a b : Q) : bool :=
  Qnum a * Zpos (Qden b) <? Qnum b * Zpos (Qden a).

(** [std::fmod] on reals: [x - y * trunc (x / y)], the sign follows [x].
    (On a zero [y] the C function yields NaN; here [x / 0] is [0].) *)
Definition fmod (a b : Q) : Q := (a - b * inject_Z (toInt (a / b)))%Q.

Module QRect.
Record t := mk { x : Z; y : Z; width : Z; height : Z }.
Definition contains (r : t) (p : QPoint.t) : bool :=
  (x r <=? QPoint.x p) && (QPoint.x p <? x r + width r) &&
  (y r <=? QPoint.y p) && (QPoint.y p <? y r + height r).
Definition translated (dx dy : Z) (r : t) : t :=
  mk (x r + dx) (y r + dy) (width r) (height r).
End QRect.

(** A [QRegion] is a finite union of rectangles. *)
Module QRegion.
Definition t := list QRect.t.
Definition empty : t := [].
(** [QRegion(int x, int y, int w, int h)] *)
Definition ofRect (x y w h : Z) : t := [QRect.mk x y w h].
Definition contains (r : t) (p : QPoint.t) : bool :=
  existsb (fun q => QRect.contains q p) r.
Definition translated (dx dy : Z) (r : t) : t :=
  map (QRect.translated dx dy) r.
(** [operator+=] *)
Definition united (r s : t) : t := r ++ s.
End QRegion.

(** An image as far as this file looks at it: its size, the region of
    its opaque pixels when it has an alpha channel ([hasAlpha()] and
    [QRegion(mask())]), and its pixel data. *)
Module QPixmap.
Record t := mk {
  width : Z;
  height : Z;
  alphaMask : option QRegion.t;
  pixel : Z -> Z -> Z
}.
Definition hasAlpha (p : t) : bool :=
  match alphaMask p with Some _ => true | None => false end.
Definition mask (p : t) : QRegion.t :=
  match alphaMask p with Some r => r | None => QRegion.empty end.

(** [QImage::mirrored(horizontal, vertical)] *)
Definition mirrorRect (w h : Z) (hf vf : bool) (r : QRect.t) : QRect.t :=
  QRect.mk (if hf then w - (QRect.x r + QRect.width r) else QRect.x r)
           (if vf then h - (QRect.y r + QRect.height r) else QRect.y r)
           (QRect.width r) (QRect.height r).
Definition mirrored (hf vf : bool) (p : t) : t :=
  mk (width p) (height p)
     (map (mirrorRect (width p) (height p) hf vf) <$> alphaMask p)
     (fun x y => pixel p (if hf then width p - 1 - x else x)
                         (if vf then height p - 1 - y else y)).
End QPixmap.

(** ** Layer identities *)

Module LayerId.
Inductive kind := NONE | BACKGROUND | WINDOW | SPRITE | BACKDROP.
Record t := mk { type : kind; index : Z }.

(** [LayerId{}]: no kind, index -1 (the header's member initialisers);
    [{ LayerId::BACKDROP }] leaves the index at -1 as well. *)
Definition none : t := mk NONE (-1).
Definition backdrop : t := mk BACKDROP (-1).

Definition kind_code (k : kind) : nat :=
  match k with
  | NONE => 0 | BACKGROUND => 1 | WINDOW => 2 | SPRITE => 3 | BACKDROP => 4
  end%nat.
Definition kind_of_code (n : nat) : kind :=
  match n with
  | 0 => NONE | 1 => BACKGROUND | 2 => WINDOW | 3 => SPRITE | _ => BACKDROP
  end%nat.

#[global] Instance kind_eq_dec : EqDecision kind.
Proof. solve_decision. Defined.
#[global] Instance kind_countable : Countable kind.
Proof. by apply (inj_countable' kind_code kind_of_code); intros []. Defined.

(** [operator==]: same kind and same index. *)
#[global] Instance eq_dec : EqDecision t.
Proof. solve_decision. Defined.
#[global] Instance countable : Countable t.
Proof.
  by apply (inj_countable' (fun i => (type i, index i))
                           (fun p => mk p.1 p.2)); intros [].
Defined.

Definition kind_name (k : kind) : string :=
  match k with
  | NONE => "None" | BACKGROUND => "Background" | WINDOW => "Window"
  | SPRITE => "Sprite" | BACKDROP => "Backdrop"
  end.

(** [LayerId::readable] *)
Definition readable (i : t) : string :=
  match type i with
  | NONE => "None"
  | k => if index i <? 0 then kind_name k
         else kind_name k +:+ " " +:+ pretty (index i)
  end.
End LayerId.

(** ** Layers and the queue *)

Record Layer := mkLayer {
  id : LayerId.t;
  enabled : bool;
  image : QPixmap.t;
  mask : QRegion.t;
  location : QPointF.t;
  repeats : bool
}.

Definition set_enabled (b : bool) (l : Layer) : Layer :=
  mkLayer (id l) b (image l) (mask l) (location l) (repeats l).
Definition set_mask (m : QRegion.t) (l : Layer) : Layer :=
  mkLayer (id l) (enabled l) (image l) m (location l) (repeats l).

(** *** Hit testing ([FrameView::lookupLayer]) *)

(** The region of one loop iteration, lines 86-103. *)
Definition layerRegion (layer : Layer) : QRegion.t :=
  let location := location layer in
  let w := inject_Z (QPixmap.width (image layer)) in
  let h := inject_Z (QPixmap.height (image layer)) in
  if repeats layer then
    let lx := if Qltb (QPointF.x location + w) 0
              then fmod (QPointF.x location) w else QPointF.x location in
    let ly := if Qltb (QPointF.y location + h) 0
              then fmod (QPointF.y location) h else QPointF.y location in
    QRegion.united
      (QRegion.united
        (QRegion.united
          (QRegion.translated (toInt lx) (toInt ly) (mask layer))
          (QRegion.translated (toInt (lx + w)) (toInt ly) (mask layer)))
        (QRegion.translated (toInt lx) (toInt (ly + h)) (mask layer)))
      (QRegion.translated (toInt (lx + w)) (toInt (ly + h)) (mask layer))
  else
    QRegion.translated (toInt (QPointF.x location))
                       (toInt (QPointF.y location)) (mask layer).

(** The guard at the top of the loop body: a layer that is switched off,
    or whose identity is in the disabled set, is passed over. *)
Definition skipped (disabled : gset LayerId.t) (layer : Layer) : bool :=
  negb (enabled layer) || bool_decide (id layer ∈ disabled).

Definition hits (disabled : gset LayerId.t) (coord : QPointF.t)
    (layer : Layer) : bool :=
  negb (skipped disabled layer) &&
  QRegion.contains (layerRegion layer)
    (QPoint.mk (toInt (QPointF.x coord)) (toInt (QPointF.y coord))).

(** The loop over [m_queue]; [out] points into the queue, so the result
    is the position of the layer found ([None] for [false]). *)
Fixpoint lookupFrom (disabled : gset LayerId.t) (coord : QPointF.t)
    (i : nat) (queue : list Layer) : option nat :=
  match queue with
  | [] => None
  | layer :: rest =>
      if hits disabled coord layer then Some i
      else lookupFrom disabled coord (S i) rest
  end.

Definition lookupLayer (queue : list Layer) (disabled : gset LayerId.t)
    (coord : QPointF.t) : option nat :=
  lookupFrom disabled coord 0%nat queue.

(** ** The replay core

    The second core ([m_vl]) lives outside this file.  It is kept here
    as the video log it was loaded with, the calls this file made on it
    (oldest first), and the renderer's highlight fields, which this file
    writes directly. *)

Module Renderer.
Record t := mk {
  highlightBG : list bool;      (* bool highlightBG[4] *)
  highlightOBJ : list bool;     (* bool highlightOBJ[128] *)
  highlightColor : Z;
  highlightAmount : Z
}.
Definition wf (r : t) : Prop :=
  length (highlightBG r) = 4%nat /\ length (highlightOBJ r) = 128%nat.
End Renderer.

Inductive CoreCall :=
| Reset
| InjectionPoint (point : Z)
| InjectOAM (address value : Z)
| EnableVideoLayer (layer : Z) (enable : bool)
| IgnoreAfterInjection (mask : Z)
| RunFrame.

#[global] Instance CoreCall_eq_dec : EqDecision CoreCall.
Proof. solve_decision. Defined.

Record mCore := mkCore {
  videoLog : list Z;
  calls : list CoreCall;
  renderer : Renderer.t
}.

Definition call (c : CoreCall) (vl : mCore) : mCore :=
  mkCore (videoLog vl) (calls vl ++ [c]) (renderer vl).
Definition withRenderer (f : Renderer.t -> Renderer.t) (vl : mCore) : mCore :=
  mkCore (videoLog vl) (calls vl) (f (renderer vl)).

(** The calls made after the last [Reset]. *)
Definition sinceReset (cs : list CoreCall) : list CoreCall :=
  foldl (fun acc c => match c with Reset => [] | _ => acc ++ [c] end) [] cs.

(** A store into a C array of booleans; an index outside the array (which
    the C code never produces for a queue built by [updateTilesGBA]) is
    left without effect. *)
Definition store (i : Z) (v : bool) (a : list bool) : list bool :=
  if (0 <=? i) && (i <? Z.of_nat (length a)) then <[Z.to_nat i := v]> a else a.

(** [for (int i = lo; i < lo + n; ++i) body] over a state. *)
Definition forRange {S : Type} (lo n : Z) (body : Z -> S -> S) (s : S) : S :=
  foldl (fun s i => body i s) s (seqZ lo n).

(** 32-bit wrap-around: the value of an [int] expression passed as
    [uint32_t]. *)
Definition toU32 (z : Z) : Z := z mod 2 ^ 32.

(** ** What the file takes from its collaborators

    Constants and register decoders of mGBA's headers, the image scaling
    of the toolkit, the sine of the C library and the replay core's
    rendering are not part of the file; the development is parametric
    in them. *)
Class Collaborators := {
  REG_DISPCNT : Z;
  REG_BG0CNT : Z;
  REG_BG0HOFS : Z;
  REG_BG0VOFS : Z;
  GBARegisterDISPCNTGetMode : Z -> Z;
  GBARegisterDISPCNTIsBg0Enable : Z -> bool;
  GBARegisterDISPCNTIsBg1Enable : Z -> bool;
  GBARegisterDISPCNTIsBg2Enable : Z -> bool;
  GBARegisterDISPCNTIsBg3Enable : Z -> bool;
  GBARegisterBGCNTGetPriority : Z -> Z;
  M_RGB5_TO_RGB8 : Z -> Z;
  GBA_VIDEO_HORIZONTAL_PIXELS : Z;
  GBA_VIDEO_VERTICAL_PIXELS : Z;
  LOGGER_INJECTION_FIRST_SCANLINE : Z;
  DIRTY_PALETTE : Z;
  DIRTY_OAM : Z;
  DIRTY_REGISTER : Z;
  (** [QPixmap::scaled(const QSize&)] and [QPixmap::scaledToHeight(int)] *)
  scaled : QSize.t -> QPixmap.t -> QPixmap.t;
  scaledToHeight : Z -> QPixmap.t -> QPixmap.t;
  (** [QPalette().color(QPalette::HighlightedText).rgb()] *)
  highlightedText : Z;
  (** [sin(glowFrame * M_PI / 30) * 64 + 64], as stored in the renderer *)
  glowAmount : Z -> Z;
  (** the frame the replay core draws: see [runFrame] *)
  replay : list Z -> list CoreCall -> Renderer.t -> QPixmap.t
}.

(** ** The live session, as seen while it is interrupted *)

Inductive Platform := PLATFORM_GBA | PLATFORM_GB.

Module ObjInfo.
Record t := mk {
  enabled : bool;
  priority : Z;
  x : Z;
  y : Z;
  hflip : bool;
  vflip : bool
}.
End ObjInfo.

Record CoreController := mkController {
  platform : Platform;
  io : Z -> Z;                              (* memory.io, by halfword *)
  palette0 : Z;                             (* video.palette[0] *)
  getPixels : QPixmap.t;
  screenDimensions : QSize.t;
  (* the asset view's readers of object and map memory *)
  lookupObj : Z -> ObjInfo.t;
  compositeObj : ObjInfo.t -> QPixmap.t;
  compositeMap : Z -> QPixmap.t
}.

(** ** The view *)

Record QListWidgetItem := mkItem {
  text : string;
  flags : Z;
  checkState : bool;      (* Qt::Checked *)
  data : Z;               (* Qt::UserRole *)
  selected : bool
}.

Record FrameView := mkView {
  m_queue : list Layer;
  m_disabled : gset LayerId.t;
  m_active : LayerId.t;
  m_glowFrame : Z;
  m_vl : option mCore;
  m_framebuffer : option QPixmap.t;         (* [None]: a null QImage *)
  m_rendered : QPixmap.t;
  m_composited : QPixmap.t;
  m_dims : QSize.t;
  m_gbaDispcnt : Z;
  ui_freeze : bool;
  ui_disableScanline : bool;
  ui_magnification : Z;
  ui_queue : list QListWidgetItem;
  ui_renderedView : QPixmap.t;
  ui_compositedView : QPixmap.t
}.

(** Field updates of the view. *)
Definition with_queue (q : list Layer) (s : FrameView) : FrameView :=
  mkView q (m_disabled s) (m_active s) (m_glowFrame s) (m_vl s)
    (m_framebuffer s) (m_rendered s) (m_composited s) (m_dims s)
    (m_gbaDispcnt s) (ui_freeze s) (ui_disableScanline s)
    (ui_magnification s) (ui_queue s) (ui_renderedView s)
    (ui_compositedView s).
Definition with_disabled (d : gset LayerId.t) (s : FrameView) : FrameView :=
  mkView (m_queue s) d (m_active s) (m_glowFrame s) (m_vl s)
    (m_framebuffer s) (m_rendered s) (m_composited s) (m_dims s)
    (m_gbaDispcnt s) (ui_freeze s) (ui_disableScanline s)
    (ui_magnification s) (ui_queue s) (ui_renderedView s)
    (ui_compositedView s).
Definition with_active (a : LayerId.t) (s : FrameView) : FrameView :=
  mkView (m_queue s) (m_disabled s) a (m_glowFrame s) (m_vl s)
    (m_framebuffer s) (m_rendered s) (m_composited s) (m_dims s)
    (m_gbaDispcnt s) (ui_freeze s) (ui_disableScanline s)
    (ui_magnification s) (ui_queue s) (ui_renderedView s)
    (ui_compositedView s).
Definition with_glowFrame (g : Z) (s : FrameView) : FrameView :=
  mkView (m_queue s) (m_disabled s) (m_active s) g (m_vl s)
    (m_framebuffer s) (m_rendered s) (m_composited s) (m_dims s)
    (m_gbaDispcnt s) (ui_freeze s) (ui_disableScanline s)
    (ui_magnification s) (ui_queue s) (ui_renderedView s)
    (ui_compositedView s).
Definition with_replay (vl : option mCore) (fb : option QPixmap.t)
    (s : FrameView) : FrameView :=
  mkView (m_queue s) (m_disabled s) (m_active s) (m_glowFrame s) vl
    fb (m_rendered s) (m_composited s) (m_dims s)
    (m_gbaDispcnt s) (ui_freeze s) (ui_disableScanline s)
    (ui_magnification s) (ui_queue s) (ui_renderedView s)
    (ui_compositedView s).
Definition with_rendered (r view : QPixmap.t) (s : FrameView) : FrameView :=
  mkView (m_queue s) (m_disabled s) (m_active s) (m_glowFrame s) (m_vl s)
    (m_framebuffer s) r (m_composited s) (m_dims s)
    (m_gbaDispcnt s) (ui_freeze s) (ui_disableScanline s)
    (ui_magnification s) (ui_queue s) view
    (ui_compositedView s).
Definition with_composited (c : QPixmap.t) (s : FrameView) : FrameView :=
  mkView (m_queue s) (m_disabled s) (m_active s) (m_glowFrame s) (m_vl s)
    (m_framebuffer s) (m_rendered s) c (m_dims s)
    (m_gbaDispcnt s) (ui_freeze s) (ui_disableScanline s)
    (ui_magnification s) (ui_queue s) (ui_renderedView s) c.
Definition with_dims (d : QSize.t) (s : FrameView) : FrameView :=
  mkView (m_queue s) (m_disabled s) (m_active s) (m_glowFrame s) (m_vl s)
    (m_framebuffer s) (m_rendered s) (m_composited s) d
    (m_gbaDispcnt s) (ui_freeze s) (ui_disableScanline s)
    (ui_magnification s) (ui_queue s) (ui_renderedView s)
    (ui_compositedView s).
Definition with_gbaDispcnt (v : Z) (s : FrameView) : FrameView :=
  mkView (m_queue s) (m_disabled s) (m_active s) (m_glowFrame s) (m_vl s)
    (m_framebuffer s) (m_rendered s) (m_composited s) (m_dims s)
    v (ui_freeze s) (ui_disableScanline s)
    (ui_magnification s) (ui_queue s) (ui_renderedView s)
    (ui_compositedView s).
Definition with_items (items : list QListWidgetItem) (s : FrameView)
    : FrameView :=
  mkView (m_queue s) (m_disabled s) (m_active s) (m_glowFrame s) (m_vl s)
    (m_framebuffer s) (m_rendered s) (m_composited s) (m_dims s)
    (m_gbaDispcnt s) (ui_freeze s) (ui_disableScanline s)
    (ui_magnification s) items (ui_renderedView s)
    (ui_compositedView s).

(** [m_queue[i]] for an [int] row. *)
Definition layerAt (queue : list Layer) (i : Z) : option Layer :=
  if i <? 0 then None else queue !! Z.to_nat i.

Section Operations.
Context `{Collaborators}.

(** *** [FrameView::updateRendered] *)
Definition updateRendered (ctl : CoreController) (s : FrameView)
    : FrameView :=
  if ui_freeze s then s
  else
    let rendered := getPixels ctl in
    with_rendered rendered
      (scaledToHeight (QPixmap.height rendered * ui_magnification s)
                      rendered) s.

(** *** [FrameView::injectGBA] *)

(** Lines 228-234. *)
Definition clearHighlights (r : Renderer.t) : Renderer.t :=
  Renderer.mk
    (store 3 false (store 2 false (store 1 false
      (store 0 false (Renderer.highlightBG r)))))
    (forRange 0 128 (fun i a => store i false a) (Renderer.highlightOBJ r))
    (Renderer.highlightColor r) (Renderer.highlightAmount r).

(** Lines 235-237. *)
Definition setGlow (glowFrame : Z) (r : Renderer.t) : Renderer.t :=
  Renderer.mk (Renderer.highlightBG r) (Renderer.highlightOBJ r)
    highlightedText (glowAmount glowFrame).

Definition setHighlightOBJ (i : Z) (r : Renderer.t) : Renderer.t :=
  Renderer.mk (Renderer.highlightBG r)
    (store i true (Renderer.highlightOBJ r))
    (Renderer.highlightColor r) (Renderer.highlightAmount r).
Definition setHighlightBG (i : Z) (r : Renderer.t) : Renderer.t :=
  Renderer.mk (store i true (Renderer.highlightBG r))
    (Renderer.highlightOBJ r)
    (Renderer.highlightColor r) (Renderer.highlightAmount r).

(** The body of the loop over the queue, lines 240-255. *)
Definition injectLayer (active : LayerId.t) (vl : mCore) (layer : Layer)
    : mCore :=
  match LayerId.type (id layer) with
  | LayerId.SPRITE =>
      let vl :=
        if negb (enabled layer)
        then call (InjectOAM
                     (toU32 (Z.shiftl (LayerId.index (id layer)) 2)) 0x200)
                  vl
        else vl in
      if bool_decide (id layer = active)
      then withRenderer (setHighlightOBJ (LayerId.index (id layer))) vl
      else vl
  | LayerId.BACKGROUND =>
      let vl :=
        call (EnableVideoLayer (LayerId.index (id layer)) (enabled layer))
             vl in
      if bool_decide (id layer = active)
      then withRenderer (setHighlightBG (LayerId.index (id layer))) vl
      else vl
  | _ => vl
  end.

Definition injectGBA (s : FrameView) (vl : mCore) : mCore :=
  let vl := call (InjectionPoint LOGGER_INJECTION_FIRST_SCANLINE) vl in
  let vl := withRenderer clearHighlights vl in
  let vl := withRenderer (setGlow (m_glowFrame s)) vl in
  let vl := foldl (injectLayer (m_active s)) vl (m_queue s) in
  if ui_disableScanline s
  then call (IgnoreAfterInjection
               (Z.lor (Z.lor (Z.shiftl 1 DIRTY_PALETTE)
                             (Z.shiftl 1 DIRTY_OAM))
                      (Z.shiftl 1 DIRTY_REGISTER))) vl
  else call (IgnoreAfterInjection 0) vl.

(** *** [FrameView::injectGB]: a loop with an empty body. *)
Definition injectGB (s : FrameView) (vl : mCore) : mCore :=
  foldl (fun vl _ => vl) vl (m_queue s).

(** *** The replay core's [reset] and [runFrame] *)

(** Modelled from the spec: the core's [reset] is not part of the file.
    Section 4.4 has every re-render start from the reset state, never
    from what an earlier run left; here a reset is a call recorded like
    the others, and [frameOf] looks no further back than the last one. *)
Definition reset (vl : mCore) : mCore := call Reset vl.

(** Modelled from the spec: the frame [runFrame] draws is not part of
    the file.  Section 4.4 has the replay deterministic and
    single-frame-from-scratch; so the frame is a function ([replay]) of
    the loaded log, the calls made since the last reset and the
    renderer's highlight fields. *)
Definition frameOf (vl : mCore) : QPixmap.t :=
  replay (videoLog vl) (sinceReset (calls vl)) (renderer vl).

(** Modelled from the spec: [runFrame], one frame run on the core. *)
Definition runFrame (vl : mCore) : mCore := call RunFrame vl.

(** *** [FrameView::invalidateQueue] *)

(** The [switch] of lines 292-301: [case PLATFORM_GBA] has no [break]
    and runs on into [injectGB]. *)
Definition inject (p : Platform) (s : FrameView) (vl : mCore) : mCore :=
  match p with
  | PLATFORM_GBA => injectGB s (injectGBA s vl)
  | PLATFORM_GB => injectGB s vl
  end.

(** Lines 290-303.  The core draws into the buffer [newVl] gave it,
    which is the storage of [m_framebuffer]. *)
Definition rerun (ctl : CoreController) (s : FrameView) : FrameView :=
  match m_vl s with
  | Some vl =>
      let vl := inject (platform ctl) s (reset vl) in
      with_replay (Some (runFrame vl))
                  ((fun _ => frameOf vl) <$> m_framebuffer s) s
  | None => s
  end.

(** One turn of the loop of lines 305-319. *)
Definition syncItem (active : LayerId.t) (items : list QListWidgetItem)
    (i : nat) (layer : Layer) : list QListWidgetItem :=
  let item := mkItem (LayerId.readable (id layer)) (Z.lor (Z.lor 1 16) 32)
                     (enabled layer) (Z.of_nat i)
                     (bool_decide (id layer = active)) in
  if (length items <=? i)%nat then items ++ [item]
  else <[i := item]> items.

Fixpoint syncFrom (active : LayerId.t) (items : list QListWidgetItem)
    (i : nat) (queue : list Layer) : list QListWidgetItem :=
  match queue with
  | [] => items
  | layer :: rest =>
      syncFrom active (syncItem active items i layer) (S i) rest
  end.

(** Lines 305-323: refresh the rows, then drop the surplus ones. *)
Definition syncList (s : FrameView) : FrameView :=
  with_items
    (take (length (m_queue s))
          (syncFrom (m_active s) (ui_queue s) 0%nat (m_queue s))) s.

(** Lines 326-334. *)
Definition composite (ctl : CoreController) (s : FrameView) : FrameView :=
  match m_framebuffer s with
  | None =>
      let s := updateRendered ctl s in
      with_composited
        (scaled (QSize.times (m_dims s) (ui_magnification s))
                (m_rendered s)) s
  | Some fb =>
      with_composited
        (scaled (QSize.times (m_dims s) (ui_magnification s)) fb) s
  end.

Definition invalidateQueue (ctl : CoreController) (dims : QSize.t)
    (s : FrameView) : FrameView :=
  let s := if QSize.isValid dims then with_dims dims s else s in
  composite ctl (syncList (rerun ctl s)).

(** [QSize()], the default argument. *)
Definition noSize : QSize.t := QSize.mk (-1) (-1).

(** *** The handlers connected in the constructor *)

(** [m_glowTimer] timeout, lines 38-41. *)
Definition glowTimeout (ctl : CoreController) (s : FrameView)
    : FrameView :=
  invalidateQueue ctl noSize (with_glowFrame (m_glowFrame s + 1) s).

(** [QListWidget::itemChanged], lines 46-55.  [row] is the item's
    user data, [checked] whether its state is [Qt::Checked]. *)
Definition toggleLayer (row : Z) (checked : bool) (s : FrameView)
    : FrameView :=
  match layerAt (m_queue s) row with
  | Some layer =>
      let s := with_queue
                 (<[Z.to_nat row := set_enabled checked layer]> (m_queue s))
                 s in
      if checked
      then with_disabled (m_disabled s ∖ {[ id layer ]}) s
      else with_disabled ({[ id layer ]} ∪ m_disabled s) s
  | None => s
  end.
Definition itemChanged (ctl : CoreController) (row : Z) (checked : bool)
    (s : FrameView) : FrameView :=
  invalidateQueue ctl noSize (toggleLayer row checked s).

(** [QListWidget::currentItemChanged], lines 56-63. *)
Definition currentItemChanged (ctl : CoreController) (row : option Z)
    (s : FrameView) : FrameView :=
  let s :=
    match row with
    | Some r =>
        match layerAt (m_queue s) r with
        | Some layer => with_active (id layer) s
        | None => s
        end
    | None => with_active LayerId.none s
    end in
  invalidateQueue ctl noSize s.

(** *** [FrameView::selectLayer] *)
Definition selectLayer (coord : QPointF.t) (s : FrameView) : FrameView :=
  match lookupLayer (m_queue s) (m_disabled s) coord with
  | None => s
  | Some i =>
      match m_queue s !! i with
      | None => s
      | Some layer =>
          let s :=
            if bool_decide (id layer = m_active s)
            then with_active LayerId.none s
            else with_active (id layer) s in
          with_glowFrame 0 s
      end
  end.

(** *** [FrameView::disableLayer] *)
Definition disableLayer (coord : QPointF.t) (s : FrameView) : FrameView :=
  match lookupLayer (m_queue s) (m_disabled s) coord with
  | None => s
  | Some i =>
      match m_queue s !! i with
      | None => s
      | Some layer =>
          with_disabled ({[ id layer ]} ∪ m_disabled s)
            (with_queue (<[i := set_enabled false layer]> (m_queue s)) s)
      end
  end.

(** *** [FrameView::updateTilesGBA] *)

(** Lines 177-181 and 203-207: the mask of the layer just appended. *)
Definition withMask (l : Layer) : Layer :=
  if QPixmap.hasAlpha (image l)
  then set_mask (QPixmap.mask (image l)) l
  else set_mask (QRegion.ofRect 0 0 (QPixmap.width (image l))
                                (QPixmap.height (image l))) l.

(** Lines 159-181, one object. *)
Definition appendSprite (ctl : CoreController) (disabled : gset LayerId.t)
    (priority sprite : Z) (queue : list Layer) : list Layer :=
  let info := lookupObj ctl sprite in
  if negb (ObjInfo.enabled info) || negb (ObjInfo.priority info =? priority)
  then queue
  else
    let offset := QPointF.ofInts (ObjInfo.x info) (ObjInfo.y info) in
    let obj := compositeObj ctl info in
    let obj := if ObjInfo.hflip info || ObjInfo.vflip info
               then QPixmap.mirrored (ObjInfo.hflip info)
                                     (ObjInfo.vflip info) obj
               else obj in
    queue ++
      [withMask (mkLayer (LayerId.mk LayerId.SPRITE sprite)
                   (negb (bool_decide
                            (LayerId.mk LayerId.SPRITE sprite ∈ disabled)))
                   obj QRegion.empty offset false)].

Definition bgEnabled (dispcnt bg : Z) : bool :=
  if bg =? 0 then GBARegisterDISPCNTIsBg0Enable dispcnt
  else if bg =? 1 then GBARegisterDISPCNTIsBg1Enable dispcnt
  else if bg =? 2 then GBARegisterDISPCNTIsBg2Enable dispcnt
  else GBARegisterDISPCNTIsBg3Enable dispcnt.

(** Lines 185-207, one background. *)
Definition appendBackground (ctl : CoreController)
    (disabled : gset LayerId.t) (dispcnt mode priority bg : Z)
    (queue : list Layer) : list Layer :=
  if negb (bgEnabled dispcnt bg) then queue
  else if negb (GBARegisterBGCNTGetPriority
                  (io ctl (Z.shiftr REG_BG0CNT 1 + bg)) =? priority)
  then queue
  else
    let offset :=
      if mode =? 0
      then QPointF.ofInts
             (- Z.land (io ctl (Z.shiftr REG_BG0HOFS 1 + Z.shiftl bg 1))
                       0x1FF)
             (- Z.land (io ctl (Z.shiftr REG_BG0VOFS 1 + Z.shiftl bg 1))
                       0x1FF)
      else QPointF.ofInts 0 0 in
    queue ++
      [withMask (mkLayer (LayerId.mk LayerId.BACKGROUND bg)
                   (negb (bool_decide
                            (LayerId.mk LayerId.BACKGROUND bg ∈ disabled)))
                   (compositeMap ctl bg) QRegion.empty offset true)].

(** Lines 210-218.  The image is filled with entry 1 of a two-colour
    table, the backdrop colour made opaque; entry 0 is not opaque, so
    the pixmap has an alpha channel, in which every pixel is set.  The
    layer's mask stays the empty region it was appended with. *)
Definition backdropLayer (ctl : CoreController)
    (disabled : gset LayerId.t) : Layer :=
  let backdrop := M_RGB5_TO_RGB8 (palette0 ctl) in
  mkLayer LayerId.backdrop
    (negb (bool_decide (LayerId.backdrop ∈ disabled)))
    (QPixmap.mk GBA_VIDEO_HORIZONTAL_PIXELS GBA_VIDEO_VERTICAL_PIXELS
       (Some (QRegion.ofRect 0 0 GBA_VIDEO_HORIZONTAL_PIXELS
                             GBA_VIDEO_VERTICAL_PIXELS))
       (fun _ _ => Z.lor backdrop 0xFF000000))
    QRegion.empty (QPointF.ofInts 0 0) false.

(** Lines 141-218: the queue rebuilt from the interrupted core. *)
Definition decomposeGBA (ctl : CoreController)
    (disabled : gset LayerId.t) : list Layer :=
  let dispcnt := io ctl (Z.shiftr REG_DISPCNT 1) in
  let mode := GBARegisterDISPCNTGetMode dispcnt in
  forRange 0 4 (fun priority queue =>
      forRange 0 4 (appendBackground ctl disabled dispcnt mode priority)
        (forRange 0 128 (appendSprite ctl disabled priority) queue))
    []
  ++ [backdropLayer ctl disabled].

Definition updateTilesGBA (ctl : CoreController) (s : FrameView)
    : FrameView :=
  if ui_freeze s then s
  else
    let s := with_queue [] s in
    let s := with_gbaDispcnt (io ctl (Z.shiftr REG_DISPCNT 1)) s in
    let s := with_queue (decomposeGBA ctl (m_disabled s)) s in
    let s := updateRendered ctl s in
    invalidateQueue ctl
      (QSize.mk GBA_VIDEO_HORIZONTAL_PIXELS GBA_VIDEO_VERTICAL_PIXELS) s.

(** *** [FrameView::updateTilesGB] *)
Definition updateTilesGB (ctl : CoreController) (s : FrameView)
    : FrameView :=
  if ui_freeze s then s
  else
    let s := with_queue [] s in
    let s := updateRendered ctl s in
    invalidateQueue ctl (screenDimensions ctl) s.

End Operations.

(** ** Vocabulary of the statements *)

(** The point handed to [QRegion::contains]. *)
Definition clickPoint (coord : QPointF.t) : QPoint.t :=
  QPoint.mk (toInt (QPointF.x coord)) (toInt (QPointF.y coord)).

(** What makes a layer eligible at a point: it is switched on, the
    operator has not disabled its identity, and its region (translated,
    and replicated when it repeats) holds the point. *)
Definition matches (disabled : gset LayerId.t) (coord : QPointF.t)
    (layer : Layer) : Prop :=
  enabled layer = true /\ (id layer ∉ disabled) /\
  QRegion.contains (layerRegion layer) (clickPoint coord) = true.

(** The same eligibility in the words of the specification, to be
    compared with what [lookupLayer] computes through [layerRegion].
    A coordinate of the placement is renormalised by [fmod] with the
    dimension only when coordinate plus dimension is negative. *)
Definition renormalised (c d : Q) : Q :=
  if Qltb (c + d) 0 then fmod c d else c.

(** Where the mask is laid down: once, at the placement cut to whole
    pixels, for a layer that does not repeat; for a repeating layer at
    the renormalised placement and at that placement moved right by the
    width, down by the height, and both. *)
Definition placements (layer : Layer) : list QPoint.t :=
  let w := inject_Z (QPixmap.width (image layer)) in
  let h := inject_Z (QPixmap.height (image layer)) in
  if repeats layer then
    let lx := renormalised (QPointF.x (location layer)) w in
    let ly := renormalised (QPointF.y (location layer)) h in
    [ QPoint.mk (toInt lx) (toInt ly);
      QPoint.mk (toInt (lx + w)) (toInt ly);
      QPoint.mk (toInt lx) (toInt (ly + h));
      QPoint.mk (toInt (lx + w)) (toInt (ly + h)) ]
  else
    [ QPoint.mk (toInt (QPointF.x (location layer)))
                (toInt (QPointF.y (location layer))) ].

(** The translated (and, for a repeating layer, wrap-replicated) mask
    holds a point: seen from one of the placements, the point is a point
    of the mask. *)
Definition maskHoldsAt (layer : Layer) (p : QPoint.t) : Prop :=
  exists off : QPoint.t, (off ∈ placements layer) /\
    QRegion.contains (mask layer)
      (QPoint.mk (QPoint.x p - QPoint.x off) (QPoint.y p - QPoint.y off))
    = true.

Definition eligible (disabled : gset LayerId.t) (coord : QPointF.t)
    (layer : Layer) : Prop :=
  enabled layer = true /\ (id layer ∉ disabled) /\
  maskHoldsAt layer (clickPoint coord).

(** The layer as placed once, without the wrap copies. *)
Definition primaryPlacement (l : Layer) : Layer :=
  mkLayer (id l) (enabled l) (image l) (mask l) (location l) false.

(** The mask stays inside the image it was made from, as the masks that
    [withMask] builds do. *)
Definition maskWithinImage (l : Layer) : Prop :=
  forall p, QRegion.contains (mask l) p = true ->
    0 <= QPoint.x p < QPixmap.width (image l) /\
    0 <= QPoint.y p < QPixmap.height (image l).

(** The calls one layer of the queue causes (lines 240-255), and what
    it does to the renderer's highlight flags. *)
Definition layerDirectives (layer : Layer) : list CoreCall :=
  match LayerId.type (id layer) with
  | LayerId.SPRITE =>
      if negb (enabled layer)
      then [InjectOAM (toU32 (Z.shiftl (LayerId.index (id layer)) 2)) 0x200]
      else []
  | LayerId.BACKGROUND =>
      [EnableVideoLayer (LayerId.index (id layer)) (enabled layer)]
  | _ => []
  end.

(** The indices [updateTilesGBA] gives its layers: objects 0..127,
    backgrounds 0..3. *)
Definition indexInRange (i : LayerId.t) : Prop :=
  match LayerId.type i with
  | LayerId.SPRITE => 0 <= LayerId.index i < 128
  | LayerId.BACKGROUND => 0 <= LayerId.index i < 4
  | _ => True
  end.

(** How many flags of an array are set. *)
Definition countSet (a : list bool) : nat := length (filter (fun b => b = true) a).

(** The calls of one [inject], by platform. *)
Definition passCalls `{Collaborators} (p : Platform) (s : FrameView)
    : list CoreCall :=
  match p with
  | PLATFORM_GBA =>
      InjectionPoint LOGGER_INJECTION_FIRST_SCANLINE ::
      (m_queue s ≫= layerDirectives) ++
      [IgnoreAfterInjection
         (if ui_disableScanline s
          then Z.lor (Z.lor (Z.shiftl 1 DIRTY_PALETTE) (Z.shiftl 1 DIRTY_OAM))
                     (Z.shiftl 1 DIRTY_REGISTER)
          else 0)]
  | PLATFORM_GB => []
  end.

Definition isBackdrop (layer : Layer) : bool :=
  bool_decide (LayerId.type (id layer) = LayerId.BACKDROP).

(** What the two loops append: sprites and backgrounds with indices in
    range, never a backdrop. *)
Definition builtLayer (layer : Layer) : Prop :=
  (LayerId.type (id layer) = LayerId.SPRITE \/
   LayerId.type (id layer) = LayerId.BACKGROUND) /\
  indexInRange (id layer).

(** ** A concrete setting

    The GBA's register layout and the video logger's constants, with a
    nearest-neighbour scaling, a constant glow and a replay that paints
    the number of calls it was given: enough to run the definitions on
    the small view below. *)
Definition gba : Collaborators := {|
  REG_DISPCNT := 0x000;
  REG_BG0CNT := 0x008;
  REG_BG0HOFS := 0x010;
  REG_BG0VOFS := 0x012;
  GBARegisterDISPCNTGetMode := fun v => Z.land v 7;
  GBARegisterDISPCNTIsBg0Enable := fun v => Z.testbit v 8;
  GBARegisterDISPCNTIsBg1Enable := fun v => Z.testbit v 9;
  GBARegisterDISPCNTIsBg2Enable := fun v => Z.testbit v 10;
  GBARegisterDISPCNTIsBg3Enable := fun v => Z.testbit v 11;
  GBARegisterBGCNTGetPriority := fun v => Z.land v 3;
  M_RGB5_TO_RGB8 := fun c =>
    Z.lor (Z.lor (Z.land (Z.shiftl c 3) 0xF8) (Z.land (Z.shiftl c 6) 0xF800))
          (Z.land (Z.shiftl c 9) 0xF80000);
  GBA_VIDEO_HORIZONTAL_PIXELS := 240;
  GBA_VIDEO_VERTICAL_PIXELS := 160;
  LOGGER_INJECTION_FIRST_SCANLINE := 1;
  DIRTY_PALETTE := 5;
  DIRTY_OAM := 4;
  DIRTY_REGISTER := 3;
  scaled := fun size p =>
    QPixmap.mk (QSize.width size) (QSize.height size) None
      (fun x y => QPixmap.pixel p (x * QPixmap.width p / QSize.width size)
                                  (y * QPixmap.height p / QSize.height size));
  scaledToHeight := fun h p =>
    QPixmap.mk (QPixmap.width p * h / QPixmap.height p) h None
      (fun x y => QPixmap.pixel p (x * QPixmap.height p / h)
                                  (y * QPixmap.height p / h));
  highlightedText := 0xFFFFFF;
  glowAmount := fun _ => 64;
  replay := fun _ cs _ =>
    QPixmap.mk 240 160 None (fun _ _ => Z.of_nat (length cs))
|}.

Definition sampleImage (w h : Z) : QPixmap.t :=
  QPixmap.mk w h None (fun _ _ => 0).

(** Sprite 5, switched off; background 1, repeating, placed at (-5, 0);
    the backdrop. *)
Definition sampleSprite : Layer :=
  mkLayer (LayerId.mk LayerId.SPRITE 5) false (sampleImage 8 8)
          (QRegion.ofRect 0 0 8 8) (QPointF.ofInts 10 10) false.
Definition sampleBackground : Layer :=
  mkLayer (LayerId.mk LayerId.BACKGROUND 1) true (sampleImage 8 8)
          (QRegion.ofRect 0 0 8 8) (QPointF.ofInts (-5) 0) true.
Definition sampleBackdrop : Layer :=
  mkLayer LayerId.backdrop true (sampleImage 240 160) QRegion.empty
          (QPointF.ofInts 0 0) false.
Definition sampleQueue : list Layer :=
  [sampleSprite; sampleBackground; sampleBackdrop].

Definition sampleCore : mCore :=
  mkCore [] [] (Renderer.mk (replicate 4 false) (replicate 128 false) 0 0).

(** The live core behind that queue: mode 0 with background 1 switched
    on (DISPCNT = 0x0200), BG1CNT with priority 1, BG1HOFS = 5, and
    object 5 alone visible, with priority 0 at (10, 10). *)
Definition sampleController : CoreController :=
  mkController PLATFORM_GBA
    (fun a => if a =? 0 then 0x0200 else if a =? 5 then 1
              else if a =? 10 then 5 else 0)
    0 (sampleImage 240 160) (QSize.mk 240 160)
    (fun i => if i =? 5 then ObjInfo.mk true 0 10 10 false false
              else ObjInfo.mk false 0 0 0 false false)
    (fun _ => sampleImage 8 8) (fun _ => sampleImage 8 8).

(** A view with a core loaded and background 1 selected. *)
Definition sampleView : FrameView :=
  mkView sampleQueue {[ LayerId.mk LayerId.SPRITE 5 ]}
    (LayerId.mk LayerId.BACKGROUND 1) 7
    (Some sampleCore) (Some (sampleImage 240 160))
    (sampleImage 240 160) (sampleImage 240 160) (QSize.mk 240 160) 0
    false false 1 [] (sampleImage 240 160) (sampleImage 240 160).

(** The same view before any log was captured, and with the freeze box
    checked. *)
Definition sampleEmptyView : FrameView :=
  with_replay None None sampleView.
Definition sampleFrozenView : FrameView :=
  mkView sampleQueue {[ LayerId.mk LayerId.SPRITE 5 ]}
    (LayerId.mk LayerId.BACKGROUND 1) 7
    (Some sampleCore) (Some (sampleImage 240 160))
    (sampleImage 240 160) (sampleImage 240 160) (QSize.mk 240 160) 0
    true false 1 [] (sampleImage 240 160) (sampleImage 240 160).

(** ** The mouse and the magnification box *)

Definition with_magnification (k : Z) (s : FrameView) : FrameView :=
  mkView (m_queue s) (m_disabled s) (m_active s) (m_glowFrame s) (m_vl s)
    (m_framebuffer s) (m_rendered s) (m_composited s) (m_dims s)
    (m_gbaDispcnt s) (ui_freeze s) (ui_disableScanline s)
    k (ui_queue s) (ui_renderedView s) (ui_compositedView s).

(** [QPointF::operator/=(qreal)], with the [int] divisor converted. *)
Definition dividedBy (p : QPointF.t) (k : Z) : QPointF.t :=
  QPointF.mk (QPointF.x p / inject_Z k) (QPointF.y p / inject_Z k).

(** The event types [eventFilter] tells apart. *)
Inductive QEventType := MouseButtonPress | MouseButtonDblClick | OtherEvent.

(** [FrameView::eventFilter]: the new view and the returned flag.
    [localPos] is the position of the mouse event. *)
Definition eventFilter (type : QEventType) (localPos : QPointF.t)
    (s : FrameView) : FrameView * bool :=
  match type with
  | MouseButtonPress =>
      (selectLayer (dividedBy localPos (ui_magnification s)) s, true)
  | MouseButtonDblClick =>
      (disableLayer (dividedBy localPos (ui_magnification s)) s, true)
  | OtherEvent => (s, false)
  end.

(** The handler of the magnification box, lines 64-69; the box already
    holds the new value when the signal arrives. *)
Definition magnificationChanged `{Collaborators} (ctl : CoreController)
    (value : Z) (s : FrameView) : FrameView :=
  let s := invalidateQueue ctl noSize (with_magnification value s) in
  with_rendered (m_rendered s)
    (scaledToHeight (QPixmap.height (m_rendered s) * ui_magnification s)
                    (m_rendered s)) s.

(** The row the list shows for the layer at position [i]. *)
Definition rowOf (active : LayerId.t) (i : nat) (layer : Layer)
    : QListWidgetItem :=
  mkItem (LayerId.readable (id layer)) (Z.lor (Z.lor 1 16) 32)
         (enabled layer) (Z.of_nat i) (bool_decide (id layer = active)).

(** ** The order of a built queue *)

(** The priority tier the hardware gives the layer behind an identity:
    the object's priority, the background's control register, and one
    past the last tier for anything else. *)
Definition tierOf `{Collaborators} (ctl : CoreController) (i : LayerId.t)
    : Z :=
  match LayerId.type i with
  | LayerId.SPRITE => ObjInfo.priority (lookupObj ctl (LayerId.index i))
  | LayerId.BACKGROUND =>
      GBARegisterBGCNTGetPriority
        (io ctl (Z.shiftr REG_BG0CNT 1 + LayerId.index i))
  | _ => 4
  end.

(** [a] comes before [b]: a lower tier; or the same tier and a sprite
    before a background; or the same tier and kind and a lower index. *)
Definition precedes `{Collaborators} (ctl : CoreController)
    (a b : LayerId.t) : Prop :=
  tierOf ctl a < tierOf ctl b \/
  (tierOf ctl a = tierOf ctl b /\
   ((LayerId.type a = LayerId.SPRITE /\
     LayerId.type b = LayerId.BACKGROUND) \/
    (LayerId.type a = LayerId.type b /\
     LayerId.index a < LayerId.index b))).

(** A position in that order as one number. *)
Definition rankOf `{Collaborators} (ctl : CoreController) (i : LayerId.t)
    : Z :=
  tierOf ctl i * 256 +
  match LayerId.type i with
  | LayerId.SPRITE => LayerId.index i
  | LayerId.BACKGROUND => 128 + LayerId.index i
  | _ => 0
  end.

(** The two inner loops of one priority, on an empty queue. *)
Definition tierLayers `{Collaborators} (ctl : CoreController) (disabled : gset LayerId.t)
    (priority : Z) : list Layer :=
  (seqZ 0 128 ≫= fun sprite =>
     appendSprite ctl disabled priority sprite []) ++
  (seqZ 0 4 ≫= fun bg =>
     appendBackground ctl disabled (io ctl (Z.shiftr REG_DISPCNT 1))
       (GBARegisterDISPCNTGetMode (io ctl (Z.shiftr REG_DISPCNT 1)))
       priority bg []).

(** Two more sample views: the sample view magnified twice, and a view
    with two sprites on top of each other at the origin. *)
Definition sampleZoomedView : FrameView := with_magnification 2 sampleView.

Definition sampleUpperSprite : Layer :=
  mkLayer (LayerId.mk LayerId.SPRITE 1) true (sampleImage 8 8)
          (QRegion.ofRect 0 0 8 8) (QPointF.ofInts 0 0) false.
Definition sampleLowerSprite : Layer :=
  mkLayer (LayerId.mk LayerId.SPRITE 2) true (sampleImage 8 8)
          (QRegion.ofRect 0 0 8 8) (QPointF.ofInts 0 0) false.
Definition sampleStackView : FrameView :=
  with_disabled ∅
    (with_queue [sampleUpperSprite; sampleLowerSprite; sampleBackdrop]
                sampleView).

(** The background layer as [updateTilesGBA] builds it from the sample
    core. *)
Definition sampleBuiltBackground : Layer :=
  default sampleBackground
    (m_queue (@updateTilesGBA gba sampleController sampleView) !! 1%nat).

(** * Properties *)

(** ** Regions *)

Lemma contains_united r s p :
  QRegion.contains (QRegion.united r s) p =
  QRegion.contains r p || QRegion.contains s p.
Proof. unfold QRegion.contains, QRegion.united. apply existsb_app. Qed.

Lemma rect_contains_translated dx dy r p :
  QRect.contains (QRect.translated dx dy r) p =
  QRect.contains r (QPoint.mk (QPoint.x p - dx) (QPoint.y p - dy)).
Proof.
  unfold QRect.contains, QRect.translated; simpl.
  repeat match goal with
  | |- context [?a <=? ?b] => destruct (Z.leb_spec a b)
  | |- context [?a <? ?b] => destruct (Z.ltb_spec a b)
  end; simpl; try reflexivity; lia.
Qed.

Lemma contains_translated dx dy r p :
  QRegion.contains (QRegion.translated dx dy r) p =
  QRegion.contains r (QPoint.mk (QPoint.x p - dx) (QPoint.y p - dy)).
Proof.
  unfold QRegion.contains, QRegion.translated.
  induction r as [|q r IH]; simpl; [reflexivity|].
  by rewrite rect_contains_translated, IH.
Qed.

(** ** Arithmetic on integral coordinates *)

Lemma toInt_inject z : toInt (inject_Z z) = z.
Proof. unfold toInt; simpl. apply Z.quot_1_r. Qed.

Lemma toInt_plus_inject a b : toInt (inject_Z a + inject_Z b) = a + b.
Proof.
  unfold toInt; simpl. rewrite Z.quot_1_r. lia.
Qed.

Lemma Qltb_plus_inject a b : Qltb (inject_Z a + inject_Z b) 0 = (a + b <? 0).
Proof.
  unfold Qltb; simpl. f_equal; lia.
Qed.

(** ** Hit testing *)

Lemma hits_matches disabled coord layer :
  hits disabled coord layer = true <-> matches disabled coord layer.
Proof.
  unfold hits, skipped, matches. fold (clickPoint coord).
  destruct (enabled layer); simpl.
  - case_bool_decide; simpl; intuition congruence.
  - intuition congruence.
Qed.

Lemma lookupFrom_spec disabled coord queue : forall i,
  match lookupFrom disabled coord i queue with
  | Some k =>
      exists j layer, k = (i + j)%nat /\ queue !! j = Some layer /\
        hits disabled coord layer = true /\
        forall j' l', (j' < j)%nat -> queue !! j' = Some l' ->
                      hits disabled coord l' = false
  | None => forall j l, queue !! j = Some l -> hits disabled coord l = false
  end.
Proof.
  induction queue as [|layer rest IH]; intros i; simpl.
  - intros j l Hl. by rewrite lookup_nil in Hl.
  - destruct (hits disabled coord layer) eqn:Hh.
    + exists 0%nat, layer. repeat split; [lia|done|lia].
    + specialize (IH (S i)).
      destruct (lookupFrom disabled coord (S i) rest) as [k|].
      * destruct IH as (j & l & -> & Hj & Hl & Hmin).
        exists (S j), l. repeat split; [lia|done|done|].
        intros [|j'] l' Hlt Hl'; simpl in Hl'; [by simplify_eq|].
        apply (Hmin j'); [lia|done].
      * intros [|j] l Hl; simpl in Hl; [by simplify_eq|]. by eapply IH.
Qed.

Lemma lookupLayer_Some queue disabled coord i :
  lookupLayer queue disabled coord = Some i ->
  exists layer, queue !! i = Some layer /\ hits disabled coord layer = true.
Proof.
  unfold lookupLayer. intros Hlook.
  pose proof (lookupFrom_spec disabled coord queue 0%nat) as Hs.
  rewrite Hlook in Hs. destruct Hs as (j & layer & -> & Hj & Hh & _).
  by exists layer.
Qed.

(** The region [lookupLayer] builds holds a point exactly when the mask,
    laid down at one of the layer's placements, does. *)
Lemma layerRegion_placements layer p :
  QRegion.contains (layerRegion layer) p = true <-> maskHoldsAt layer p.
Proof.
  unfold maskHoldsAt, placements, layerRegion, renormalised.
  destruct (repeats layer).
  - rewrite !contains_united, !orb_true_iff, !contains_translated.
    split.
    + intros [[[Hc | Hc] | Hc] | Hc];
        match type of Hc with
        | QRegion.contains _ (QPoint.mk (_ - ?dx) (_ - ?dy)) = true =>
            exists (QPoint.mk dx dy); split; [set_solver | exact Hc]
        end.
    + intros (off & Hin & Hc).
      repeat (apply elem_of_cons in Hin as [-> | Hin]);
        [tauto | tauto | tauto | tauto | by apply elem_of_nil in Hin].
  - rewrite contains_translated. split.
    + intros Hc.
      exists (QPoint.mk (toInt (QPointF.x (location layer)))
                        (toInt (QPointF.y (location layer)))).
      split; [set_solver | exact Hc].
    + intros (off & Hin & Hc).
      apply list_elem_of_singleton in Hin as ->. exact Hc.
Qed.

Lemma hits_eligible disabled coord layer :
  hits disabled coord layer = true <-> eligible disabled coord layer.
Proof.
  rewrite hits_matches. unfold matches, eligible.
  by rewrite layerRegion_placements.
Qed.

(** C2.  [lookupLayer] yields the position of the first layer, in queue
    order, that is switched on, not in the disabled set and whose mask,
    translated to its placement (and for a repeating layer replicated
    to the right, below and both), holds the point cut to whole pixels:
    every layer before it fails one of the three; and it yields nothing
    exactly when no layer of the queue qualifies.  Nothing but the
    position in the queue decides between two layers that both hold the
    point. *)
Theorem lookupLayer_first_match (queue : list Layer)
    (disabled : gset LayerId.t) (coord : QPointF.t) :
  match lookupLayer queue disabled coord with
  | Some i =>
      exists layer, queue !! i = Some layer /\
        eligible disabled coord layer /\
        forall j earlier, (j < i)%nat -> queue !! j = Some earlier ->
                          ~ eligible disabled coord earlier
  | None =>
      forall layer, layer ∈ queue -> ~ eligible disabled coord layer
  end.
Proof.
  unfold lookupLayer.
  pose proof (lookupFrom_spec disabled coord queue 0%nat) as Hs.
  destruct (lookupFrom disabled coord 0%nat queue) as [k|].
  - destruct Hs as (j & layer & -> & Hj & Hh & Hmin).
    exists layer. split; [done|]. split; [by apply hits_eligible|].
    intros j' l' Hlt Hl' Hm. apply hits_eligible in Hm.
    rewrite (Hmin j' l') in Hm; [done|lia|done].
  - intros layer [j Hj]%list_elem_of_lookup Hm.
    apply hits_eligible in Hm. by rewrite (Hs j layer Hj) in Hm.
Qed.

Lemma wrap_zero (H : Z) :
  let ly := if Qltb (inject_Z 0 + inject_Z H) 0
            then fmod (inject_Z 0) (inject_Z H) else inject_Z 0 in
  toInt ly = 0 /\ toInt (ly + inject_Z H) = H.
Proof.
  intros ly. subst ly. rewrite Qltb_plus_inject.
  destruct (Z.ltb_spec (0 + H) 0) as [Hneg|Hpos].
  - destruct H as [|p|p]; try lia.
    unfold fmod, toInt. cbn. rewrite Z.quot_1_r. split; [reflexivity|].
    change (0 * -1) with 0. rewrite Z.quot_0_l by done.
    rewrite Z.mul_0_r. change (Z.pos (1 * (1 * 1) * 1)) with 1. rewrite Z.quot_1_r. change (Z.pos (1 * (1 * 1))) with 1. change (Z.pos (1 * 1)) with 1. lia.
  - split; [apply toInt_inject | apply toInt_plus_inject].
Qed.

Lemma wrap_minus5 (W : Z) :
  3 <= W ->
  let lx := if Qltb (inject_Z (-5) + inject_Z W) 0
            then fmod (inject_Z (-5)) (inject_Z W) else inject_Z (-5) in
  (W < 5 /\ toInt lx = W - 5 /\ toInt (lx + inject_Z W) = 2 * W - 5) \/
  (5 <= W /\ toInt lx = -5 /\ toInt (lx + inject_Z W) = W - 5).
Proof.
  intros HW lx. subst lx. rewrite Qltb_plus_inject.
  destruct (Z.ltb_spec (-5 + W) 0) as [Hlt|Hge].
  - left. assert (W = 3 \/ W = 4) as [-> | ->] by lia; vm_compute; done.
  - right. split; [lia|]. split; [apply toInt_inject|].
    rewrite toInt_plus_inject. lia.
Qed.

Lemma repeating_region_contains layer p :
  repeats layer = true ->
  let w := inject_Z (QPixmap.width (image layer)) in
  let h := inject_Z (QPixmap.height (image layer)) in
  let lx := if Qltb (QPointF.x (location layer) + w) 0
            then fmod (QPointF.x (location layer)) w
            else QPointF.x (location layer) in
  let ly := if Qltb (QPointF.y (location layer) + h) 0
            then fmod (QPointF.y (location layer)) h
            else QPointF.y (location layer) in
  QRegion.contains (layerRegion layer) p =
    QRegion.contains (QRegion.translated (toInt lx) (toInt ly) (mask layer)) p
    || QRegion.contains
         (QRegion.translated (toInt (lx + w)) (toInt ly) (mask layer)) p
    || QRegion.contains
         (QRegion.translated (toInt lx) (toInt (ly + h)) (mask layer)) p
    || QRegion.contains
         (QRegion.translated (toInt (lx + w)) (toInt (ly + h)) (mask layer)) p.
Proof.
  intros Hrep w h lx ly. unfold layerRegion. rewrite Hrep.
  fold w h. fold lx. fold ly.
  by rewrite !contains_united.
Qed.

Lemma primary_hits disabled a b layer :
  hits disabled (QPointF.ofInts a b) (primaryPlacement layer) =
  negb (skipped disabled layer) &&
  QRegion.contains
    (QRegion.translated (toInt (QPointF.x (location layer)))
                        (toInt (QPointF.y (location layer))) (mask layer))
    (QPoint.mk a b).
Proof.
  unfold hits, layerRegion, primaryPlacement, skipped; simpl.
  by rewrite !toInt_inject.
Qed.

(** C3.  For a repeating layer the region tested is the union of the
    mask at its placement and at the placement moved right by the width,
    down by the height, and both; a coordinate of the placement is
    replaced by its [fmod] with the dimension only when coordinate plus
    dimension is negative.  With the placement at (-5, 0) and a width [W]
    of at least 3, a point that the primary placement holds at (-3, y) is
    found again at (W-3, y); and when the mask lies inside the image and
    [y] inside the height, the two tests agree. *)
Theorem repeating_layer_wraps (layer : Layer) :
  repeats layer = true ->
  let W := QPixmap.width (image layer) in
  let H := QPixmap.height (image layer) in
  let w := inject_Z W in
  let h := inject_Z H in
  let lx := if Qltb (QPointF.x (location layer) + w) 0
            then fmod (QPointF.x (location layer)) w
            else QPointF.x (location layer) in
  let ly := if Qltb (QPointF.y (location layer) + h) 0
            then fmod (QPointF.y (location layer)) h
            else QPointF.y (location layer) in
  (forall p,
     QRegion.contains (layerRegion layer) p = true <->
     QRegion.contains
       (QRegion.translated (toInt lx) (toInt ly) (mask layer)) p = true \/
     QRegion.contains
       (QRegion.translated (toInt (lx + w)) (toInt ly) (mask layer)) p = true \/
     QRegion.contains
       (QRegion.translated (toInt lx) (toInt (ly + h)) (mask layer)) p = true \/
     QRegion.contains
       (QRegion.translated (toInt (lx + w)) (toInt (ly + h)) (mask layer)) p
       = true) /\
  (location layer = QPointF.ofInts (-5) 0 -> 3 <= W ->
   forall disabled y,
     (hits disabled (QPointF.ofInts (-3) y) (primaryPlacement layer) = true ->
      hits disabled (QPointF.ofInts (W - 3) y) layer = true) /\
     (maskWithinImage layer -> 0 <= y < H ->
      hits disabled (QPointF.ofInts (W - 3) y) layer =
      hits disabled (QPointF.ofInts (-3) y) (primaryPlacement layer))).
Proof.
  intros Hrep W H w h lx ly.
  pose proof (fun p => repeating_region_contains layer p Hrep) as Hreg.
  cbv zeta in Hreg. fold W H in Hreg. fold w h in Hreg.
  fold lx in Hreg. fold ly in Hreg.
  split.
  { intros p. rewrite Hreg, !orb_true_iff. tauto. }
  intros Hloc HW disabled y.
  assert (Hprim : hits disabled (QPointF.ofInts (-3) y) (primaryPlacement layer)
                  = negb (skipped disabled layer) &&
                    QRegion.contains (mask layer) (QPoint.mk 2 y)).
  { rewrite primary_hits, Hloc; simpl. rewrite !toInt_inject.
    rewrite contains_translated; simpl. do 3 f_equal; lia. }
  assert (Hwrap : hits disabled (QPointF.ofInts (W - 3) y) layer
                  = negb (skipped disabled layer) &&
                    (QRegion.contains (mask layer)
                       (QPoint.mk (W - 3 - toInt lx) (y - toInt ly))
                     || QRegion.contains (mask layer)
                       (QPoint.mk (W - 3 - toInt (lx + w)) (y - toInt ly))
                     || QRegion.contains (mask layer)
                       (QPoint.mk (W - 3 - toInt lx) (y - toInt (ly + h)))
                     || QRegion.contains (mask layer)
                       (QPoint.mk (W - 3 - toInt (lx + w))
                                  (y - toInt (ly + h))))).
  { unfold hits; simpl. rewrite !toInt_inject, Hreg.
    by rewrite !contains_translated. }
  assert (Hy : toInt ly = 0 /\ toInt (ly + h) = H).
  { subst ly h. rewrite Hloc; simpl. apply wrap_zero. }
  assert (Hx : (W < 5 /\ toInt lx = W - 5 /\ toInt (lx + w) = 2 * W - 5) \/
               (5 <= W /\ toInt lx = -5 /\ toInt (lx + w) = W - 5)).
  { subst lx w. rewrite Hloc; simpl. by apply wrap_minus5. }
  destruct Hy as [Hy0 HyH]. rewrite Hwrap, Hprim, Hy0, HyH.
  destruct (negb (skipped disabled layer)); simpl; [|by split].
  split.
  - intros Hin.
    destruct Hx as [(_ & -> & _) | (_ & _ & ->)].
    + replace (W - 3 - (W - 5)) with 2 by lia.
      replace (y - 0) with y by lia. by rewrite Hin.
    + replace (W - 3 - (W - 5)) with 2 by lia.
      replace (y - 0) with y by lia. rewrite Hin. by rewrite orb_true_r.
  - intros Hmask Hyr.
    assert (Hout : forall a b, ~ (0 <= a < W /\ 0 <= b < H) ->
                   QRegion.contains (mask layer) (QPoint.mk a b) = false).
    { intros a b Hn.
      destruct (QRegion.contains (mask layer) (QPoint.mk a b)) eqn:E; [|done].
      apply Hmask in E. simpl in E. by destruct Hn. }
    replace (y - 0) with y by lia.
    destruct Hx as [(? & -> & ->) | (? & -> & ->)].
    + replace (W - 3 - (W - 5)) with 2 by lia.
      rewrite (Hout (W - 3 - (2 * W - 5)) y) by lia.
      rewrite (Hout 2 (y - H)) by lia.
      rewrite (Hout (W - 3 - (2 * W - 5)) (y - H)) by lia.
      by rewrite !orb_false_r.
    + replace (W - 3 - (W - 5)) with 2 by lia.
      rewrite (Hout (W - 3 - -5) y) by lia.
      rewrite (Hout (W - 3 - -5) (y - H)) by lia.
      rewrite (Hout 2 (y - H)) by lia.
      simpl. by rewrite !orb_false_r.
Qed.

(** ** Loops and arrays *)

Lemma forRange_ind {S : Type} (P : S -> Prop) lo n (body : Z -> S -> S) s :
  P s ->
  (forall i s, lo <= i < lo + n -> P s -> P (body i s)) ->
  P (forRange lo n body s).
Proof.
  intros Hs Hstep. unfold forRange.
  assert (Hin : forall i, i ∈ seqZ lo n -> lo <= i < lo + n).
  { intros i Hi. apply elem_of_seqZ in Hi. lia. }
  revert s Hs Hin. generalize (seqZ lo n) as l.
  induction l as [|i l IH]; intros s Hs Hin; simpl; [done|].
  apply IH.
  - apply Hstep; [apply Hin; left | done].
  - intros j Hj. apply Hin. by right.
Qed.

Lemma length_store i v a : length (store i v a) = length a.
Proof. unfold store. case_match; [apply length_insert | done]. Qed.

Lemma lookup_store i v a (j : nat) :
  store i v a !! j =
  if bool_decide (i = Z.of_nat j /\ (j < length a)%nat) then Some v else a !! j.
Proof.
  unfold store.
  destruct (Z.leb_spec 0 i), (Z.ltb_spec i (Z.of_nat (length a))); simpl.
  - destruct (decide (Z.to_nat i = j)) as [<-|Hne].
    + rewrite list_lookup_insert_eq by lia.
      rewrite bool_decide_eq_true_2; [done | lia].
    + rewrite list_lookup_insert_ne by done.
      rewrite bool_decide_eq_false_2; [done | lia].
  - rewrite bool_decide_eq_false_2; [done | lia].
  - rewrite bool_decide_eq_false_2; [done | lia].
  - rewrite bool_decide_eq_false_2; [done | lia].
Qed.

Lemma clear_range a n :
  length a = n ->
  forRange 0 (Z.of_nat n) (fun i a => store i false a) a = replicate n false.
Proof.
  intros Hlen.
  assert (Hgen : forall (l : list Z) (b : list bool),
    length (foldl (fun s i => store i false s) b l) = length b /\
    forall j : nat,
      foldl (fun s i => store i false s) b l !! j =
      if bool_decide (Z.of_nat j ∈ l /\ (j < length b)%nat)
      then Some false else b !! j).
  { induction l as [|i l IH]; intros b; simpl.
    - by split.
    - destruct (IH (store i false b)) as [Hl Hj].
      rewrite length_store in Hl. split; [done|].
      intros j. rewrite Hj, length_store, lookup_store.
      repeat case_bool_decide; try done.
      all: exfalso; set_solver. }
  unfold forRange. destruct (Hgen (seqZ 0 (Z.of_nat n)) a) as [Hl Hj].
  apply list_eq. intros j. rewrite Hj.
  destruct (decide (j < n)%nat) as [Hlt|Hge].
  - rewrite bool_decide_eq_true_2.
    + by rewrite lookup_replicate_2.
    + split; [|lia]. apply elem_of_seqZ. lia.
  - rewrite bool_decide_eq_false_2 by lia.
    rewrite lookup_ge_None_2 by lia.
    symmetry. apply lookup_ge_None_2. rewrite length_replicate. lia.
Qed.

Lemma countSet_replicate n : countSet (replicate n false) = 0%nat.
Proof.
  unfold countSet. induction n as [|n IH]; simpl; [done|].
  rewrite filter_cons_False by done. exact IH.
Qed.

Lemma countSet_store_one n i :
  (countSet (store i true (replicate n false)) <= 1)%nat.
Proof.
  unfold store. case_match; [|rewrite countSet_replicate; lia].
  generalize (Z.to_nat i) as k. clear.
  induction n as [|n IH]; intros k; simpl; [unfold countSet; simpl; lia|].
  destruct k as [|k]; simpl.
  - unfold countSet. rewrite filter_cons_True by done. simpl.
    fold (countSet (replicate n false)). rewrite countSet_replicate. lia.
  - unfold countSet. rewrite filter_cons_False by done. apply IH.
Qed.

Lemma countSet_app a b : countSet (a ++ b) = (countSet a + countSet b)%nat.
Proof. unfold countSet. by rewrite filter_app, length_app. Qed.

Lemma store_store_same i v a : store i v (store i v a) = store i v a.
Proof.
  apply list_eq. intros j. rewrite !lookup_store, length_store.
  by repeat case_bool_decide.
Qed.

Section Injection.
Context `{Collaborators}.

(** *** What one pass over the queue does *)

Lemma injectLayer_calls active vl layer :
  calls (injectLayer active vl layer) = calls vl ++ layerDirectives layer.
Proof.
  unfold injectLayer, layerDirectives.
  destruct (LayerId.type (id layer)); simpl;
    try (by rewrite app_nil_r);
    destruct (enabled layer); simpl;
    case_bool_decide; simpl; by rewrite ?app_nil_r.
Qed.

Lemma injectLayer_videoLog active vl layer :
  videoLog (injectLayer active vl layer) = videoLog vl.
Proof.
  unfold injectLayer.
  destruct (LayerId.type (id layer)); simpl; try done;
    destruct (enabled layer); simpl; by case_bool_decide.
Qed.

(** The flag a layer sets: its own, and only when it is the active one. *)
Lemma injectLayer_renderer active vl layer :
  renderer (injectLayer active vl layer) =
  if bool_decide (id layer = active) then
    match LayerId.type active with
    | LayerId.SPRITE => setHighlightOBJ (LayerId.index active) (renderer vl)
    | LayerId.BACKGROUND => setHighlightBG (LayerId.index active) (renderer vl)
    | _ => renderer vl
    end
  else renderer vl.
Proof.
  unfold injectLayer.
  case_bool_decide as Heq.
  - rewrite <- Heq.
    destruct (LayerId.type (id layer)); simpl; try done;
      by destruct (enabled layer).
  - destruct (LayerId.type (id layer)); simpl; try done;
      by destruct (enabled layer).
Qed.

Lemma fold_injectLayer_calls active queue : forall vl,
  calls (foldl (injectLayer active) vl queue) =
  calls vl ++ (queue ≫= layerDirectives).
Proof.
  induction queue as [|layer rest IH]; intros vl; simpl.
  - by rewrite app_nil_r.
  - by rewrite IH, injectLayer_calls, <- app_assoc.
Qed.

Lemma fold_injectLayer_videoLog active queue : forall vl,
  videoLog (foldl (injectLayer active) vl queue) = videoLog vl.
Proof.
  induction queue as [|layer rest IH]; intros vl; simpl; [done|].
  by rewrite IH, injectLayer_videoLog.
Qed.

(** After the loop, the renderer differs from the one before it at most
    in the flag of the active layer, set when the queue holds it. *)
Lemma fold_injectLayer_renderer active queue : forall vl,
  renderer (foldl (injectLayer active) vl queue) =
  if bool_decide (active ∈ id <$> queue) then
    match LayerId.type active with
    | LayerId.SPRITE => setHighlightOBJ (LayerId.index active) (renderer vl)
    | LayerId.BACKGROUND => setHighlightBG (LayerId.index active) (renderer vl)
    | _ => renderer vl
    end
  else renderer vl.
Proof.
  induction queue as [|layer rest IH]; intros vl.
  - done.
  - rewrite fmap_cons. cbn [foldl]. rewrite IH, injectLayer_renderer.
    destruct (decide (id layer = active)) as [Heq|Hne].
    + rewrite (bool_decide_eq_true_2 (id layer = active)) by done.
      rewrite (bool_decide_eq_true_2 (active ∈ id layer :: (id <$> rest)))
        by (rewrite Heq; left).
      case_bool_decide; [|done].
      destruct (LayerId.type active); try done;
        unfold setHighlightOBJ, setHighlightBG; simpl;
        by rewrite store_store_same.
    + rewrite (bool_decide_eq_false_2 (id layer = active)) by done.
      rewrite (bool_decide_ext (active ∈ id layer :: (id <$> rest))
                               (active ∈ id <$> rest)); [done|].
      rewrite elem_of_cons. naive_solver.
Qed.

End Injection.

Section InjectionPass.
Context `{Collaborators}.

Lemma injectGBA_calls s vl :
  calls (injectGBA s vl) =
  calls vl ++
    InjectionPoint LOGGER_INJECTION_FIRST_SCANLINE ::
    (m_queue s ≫= layerDirectives) ++
    [IgnoreAfterInjection
       (if ui_disableScanline s
        then Z.lor (Z.lor (Z.shiftl 1 DIRTY_PALETTE) (Z.shiftl 1 DIRTY_OAM))
                   (Z.shiftl 1 DIRTY_REGISTER)
        else 0)].
Proof.
  unfold injectGBA.
  destruct (ui_disableScanline s); simpl;
    rewrite fold_injectLayer_calls; simpl;
    by rewrite <- !app_assoc.
Qed.

Lemma shift_index_times4 i :
  0 <= i < 2 ^ 30 -> toU32 (Z.shiftl i 2) = i * 4.
Proof.
  intros Hi. unfold toU32. rewrite Z.shiftl_mul_pow2 by lia.
  apply Z.mod_small. lia.
Qed.

(** C1.  One pass of [injectGBA] first sets the injection point to the
    first scanline and last sets the ignore mask; in between it makes,
    for every sprite layer that is switched off, the call that writes
    0x200 at attribute index [4 * index], and for every background
    layer the call that sets video layer [index] to the layer's
    [enabled] flag.  It makes no other call: a log patch always comes
    from a sprite that is off, a background only ever gets the enable
    call. *)
Theorem injectGBA_directives (s : FrameView) (vl : mCore) :
  exists body ignore,
    calls (injectGBA s vl) =
      calls vl ++ InjectionPoint LOGGER_INJECTION_FIRST_SCANLINE ::
                  body ++ [IgnoreAfterInjection ignore] /\
    (forall layer, layer ∈ m_queue s ->
       LayerId.type (id layer) = LayerId.SPRITE -> enabled layer = false ->
       0 <= LayerId.index (id layer) < 2 ^ 30 ->
       InjectOAM (LayerId.index (id layer) * 4) 0x200 ∈ body) /\
    (forall layer, layer ∈ m_queue s ->
       LayerId.type (id layer) = LayerId.BACKGROUND ->
       EnableVideoLayer (LayerId.index (id layer)) (enabled layer) ∈ body) /\
    (forall c, c ∈ body ->
       exists layer, layer ∈ m_queue s /\
         ((LayerId.type (id layer) = LayerId.SPRITE /\ enabled layer = false /\
           c = InjectOAM (toU32 (Z.shiftl (LayerId.index (id layer)) 2)) 0x200)
          \/
          (LayerId.type (id layer) = LayerId.BACKGROUND /\
           c = EnableVideoLayer (LayerId.index (id layer)) (enabled layer)))).
Proof.
  eexists _, _. split; [apply injectGBA_calls|].
  split; [|split].
  - intros layer Hin Hty Hoff Hrange.
    apply list_elem_of_bind. exists layer. split; [|done].
    unfold layerDirectives. rewrite Hty, Hoff; simpl.
    rewrite shift_index_times4 by done. by left.
  - intros layer Hin Hty.
    apply list_elem_of_bind. exists layer. split; [|done].
    unfold layerDirectives. rewrite Hty. by left.
  - intros c (layer & Hc & Hin)%list_elem_of_bind.
    exists layer. split; [done|].
    unfold layerDirectives in Hc.
    destruct (LayerId.type (id layer)) eqn:Hty;
      try (by apply not_elem_of_nil in Hc).
    + right. apply list_elem_of_singleton in Hc. by split.
    + left. destruct (enabled layer) eqn:Hen; simpl in Hc;
        [by apply not_elem_of_nil in Hc|].
      apply list_elem_of_singleton in Hc. by repeat split.
Qed.

(** *** Highlight flags *)

Lemma clearHighlights_wf r :
  Renderer.wf r ->
  clearHighlights r =
  Renderer.mk (replicate 4 false) (replicate 128 false)
              (Renderer.highlightColor r) (Renderer.highlightAmount r).
Proof.
  intros [Hbg Hobj]. unfold clearHighlights. f_equal.
  - destruct (Renderer.highlightBG r) as [|a [|b [|c [|d [|e l]]]]];
      simpl in Hbg; try discriminate. reflexivity.
  - change 128 with (Z.of_nat 128). by apply clear_range.
Qed.

(** The renderer after a pass, whatever its flags were before. *)
Lemma injectGBA_renderer s vl :
  Renderer.wf (renderer vl) ->
  let base := Renderer.mk (replicate 4 false) (replicate 128 false)
                          highlightedText (glowAmount (m_glowFrame s)) in
  renderer (injectGBA s vl) =
  if bool_decide (m_active s ∈ id <$> m_queue s) then
    match LayerId.type (m_active s) with
    | LayerId.SPRITE => setHighlightOBJ (LayerId.index (m_active s)) base
    | LayerId.BACKGROUND => setHighlightBG (LayerId.index (m_active s)) base
    | _ => base
    end
  else base.
Proof.
  intros Hwf base.
  assert (Hr : renderer (injectGBA s vl) =
               renderer (foldl (injectLayer (m_active s))
                 (withRenderer (setGlow (m_glowFrame s))
                    (withRenderer clearHighlights
                       (call (InjectionPoint LOGGER_INJECTION_FIRST_SCANLINE)
                             vl)))
                 (m_queue s))).
  { unfold injectGBA. by destruct (ui_disableScanline s). }
  rewrite Hr, fold_injectLayer_renderer. simpl.
  by rewrite (clearHighlights_wf _ Hwf).
Qed.

Lemma injectGBA_videoLog s vl : videoLog (injectGBA s vl) = videoLog vl.
Proof.
  unfold injectGBA.
  destruct (ui_disableScanline s); simpl; by rewrite fold_injectLayer_videoLog.
Qed.

End InjectionPass.

Section Highlights.
Context `{Collaborators}.

Lemma active_in_range (s : FrameView) :
  Forall (fun layer => indexInRange (id layer)) (m_queue s) ->
  m_active s ∈ id <$> m_queue s -> indexInRange (m_active s).
Proof.
  intros Hall (layer & -> & Hin)%list_elem_of_fmap.
  by apply (proj1 (Forall_forall _ _) Hall).
Qed.

Lemma lookup_store_replicate_true n i (j : nat) :
  store i true (replicate n false) !! j = Some true <->
  i = Z.of_nat j /\ (j < n)%nat.
Proof.
  rewrite lookup_store, length_replicate.
  case_bool_decide as Hd; [by split|].
  split; [|done]. intros Hj.
  apply lookup_replicate in Hj. by destruct Hj.
Qed.

Lemma lookup_replicate_false_ne n (j : nat) :
  replicate n false !! j <> Some true.
Proof. intros Hj. apply lookup_replicate in Hj. by destruct Hj. Qed.

(** C10.  For a renderer with its two flag arrays and a queue whose
    indices are those [updateTilesGBA] hands out: after [injectGBA],
    background flag [i] is set exactly when the active layer is
    background [i] and the queue holds it, object flag [i] exactly when
    the active layer is sprite [i] and the queue holds it; so at most
    one flag of the 4 + 128 is set, and none is left over from the
    renderer's earlier state. *)
Theorem injectGBA_highlights (s : FrameView) (vl : mCore) :
  Renderer.wf (renderer vl) ->
  Forall (fun layer => indexInRange (id layer)) (m_queue s) ->
  let r := renderer (injectGBA s vl) in
  (forall i : nat,
     Renderer.highlightBG r !! i = Some true <->
     m_active s = LayerId.mk LayerId.BACKGROUND (Z.of_nat i) /\
     m_active s ∈ id <$> m_queue s) /\
  (forall i : nat,
     Renderer.highlightOBJ r !! i = Some true <->
     m_active s = LayerId.mk LayerId.SPRITE (Z.of_nat i) /\
     m_active s ∈ id <$> m_queue s) /\
  length (Renderer.highlightBG r) = 4%nat /\
  length (Renderer.highlightOBJ r) = 128%nat /\
  (countSet (Renderer.highlightBG r) + countSet (Renderer.highlightOBJ r)
   <= 1)%nat.
Proof.
  intros Hwf Hall r. subst r.
  rewrite (injectGBA_renderer s vl Hwf). cbv zeta.
  pose proof (active_in_range s Hall) as Hrange.
  destruct (m_active s) as [ty ix] eqn:Hact.
  unfold indexInRange in Hrange.
  cbn [LayerId.type LayerId.index] in *.
  assert (Hcases :
    (ty = LayerId.BACKGROUND /\ 0 <= ix < 4 /\
     LayerId.mk ty ix ∈ id <$> m_queue s) \/
    (ty = LayerId.SPRITE /\ 0 <= ix < 128 /\
     LayerId.mk ty ix ∈ id <$> m_queue s) \/
    ((ty <> LayerId.BACKGROUND /\ ty <> LayerId.SPRITE) \/
     LayerId.mk ty ix ∉ id <$> m_queue s)).
  { destruct (decide (LayerId.mk ty ix ∈ id <$> m_queue s)) as [Hin|Hout];
      [|by right; right; right].
    specialize (Hrange Hin).
    destruct ty; try (by right; right; left); [by left | by right; left]. }
  destruct Hcases as [(-> & Hix & Hin) | [(-> & Hix & Hin) | Hno]].
  - rewrite bool_decide_eq_true_2 by done.
    cbn [setHighlightBG Renderer.highlightBG Renderer.highlightOBJ].
    rewrite length_store, !length_replicate, countSet_replicate.
    split; [|split; [|split; [|split]]]; try done.
    + intros i. rewrite lookup_store_replicate_true. split.
      * by intros [-> _].
      * intros [Heq _]. injection Heq as ->. split; [done | lia].
    + intros i. split; [by intros Hj%lookup_replicate_false_ne|].
      by intros [? _].
    + pose proof (countSet_store_one 4 ix). lia.
  - rewrite bool_decide_eq_true_2 by done.
    cbn [setHighlightOBJ Renderer.highlightBG Renderer.highlightOBJ].
    rewrite length_store, !length_replicate, countSet_replicate.
    split; [|split; [|split; [|split]]]; try done.
    + intros i. split; [by intros Hj%lookup_replicate_false_ne|].
      by intros [? _].
    + intros i. rewrite lookup_store_replicate_true. split.
      * by intros [-> _].
      * intros [Heq _]. injection Heq as ->. split; [done | lia].
    + pose proof (countSet_store_one 128 ix). lia.
  - assert (Hbase :
      (if bool_decide (LayerId.mk ty ix ∈ id <$> m_queue s) then
         match ty with
         | LayerId.SPRITE =>
             setHighlightOBJ ix
               (Renderer.mk (replicate 4 false) (replicate 128 false)
                  highlightedText (glowAmount (m_glowFrame s)))
         | LayerId.BACKGROUND =>
             setHighlightBG ix
               (Renderer.mk (replicate 4 false) (replicate 128 false)
                  highlightedText (glowAmount (m_glowFrame s)))
         | _ => Renderer.mk (replicate 4 false) (replicate 128 false)
                  highlightedText (glowAmount (m_glowFrame s))
         end
       else Renderer.mk (replicate 4 false) (replicate 128 false)
              highlightedText (glowAmount (m_glowFrame s))) =
      Renderer.mk (replicate 4 false) (replicate 128 false)
        highlightedText (glowAmount (m_glowFrame s))).
    { case_bool_decide; [|done].
      destruct Hno as [[Hb Hs] | Hout]; [|done]. by destruct ty. }
    rewrite Hbase.
    cbn [Renderer.highlightBG Renderer.highlightOBJ].
    rewrite !length_replicate, !countSet_replicate.
    split; [|split; [|split; [|split]]]; try done.
    + intros i. split; [by intros Hj%lookup_replicate_false_ne|].
      intros [Heq Hin]. destruct Hno as [[Hb _] | Hout]; [|done].
      by injection Heq as -> _.
    + intros i. split; [by intros Hj%lookup_replicate_false_ne|].
      intros [Heq Hin]. destruct Hno as [[_ Hs] | Hout]; [|done].
      by injection Heq as -> _.
    + lia.
Qed.

(** C7.  A click that finds layer [L] makes [L] the active layer when it
    was not, clears the active layer when [L] was it, and in both cases
    puts the glow counter back to zero; after the click that deselects,
    a pass of [injectGBA] leaves every highlight flag clear. *)
Theorem selectLayer_toggles (s : FrameView) (coord : QPointF.t) (i : nat) :
  lookupLayer (m_queue s) (m_disabled s) coord = Some i ->
  exists L, m_queue s !! i = Some L /\
    let s' := selectLayer coord s in
    (id L <> m_active s -> m_active s' = id L) /\
    (id L = m_active s -> m_active s' = LayerId.none) /\
    m_glowFrame s' = 0 /\
    m_queue s' = m_queue s /\ m_disabled s' = m_disabled s /\
    (id L = m_active s ->
     forall vl, Renderer.wf (renderer vl) ->
       Renderer.highlightBG (renderer (injectGBA s' vl)) = replicate 4 false /\
       Renderer.highlightOBJ (renderer (injectGBA s' vl))
         = replicate 128 false).
Proof.
  intros Hlook.
  destruct (lookupLayer_Some _ _ _ _ Hlook) as (L & HL & _).
  exists L. split; [done|]. intros s'.
  assert (Hs' : s' = with_glowFrame 0
            (if bool_decide (id L = m_active s)
             then with_active LayerId.none s else with_active (id L) s)).
  { subst s'. unfold selectLayer. by rewrite Hlook, HL. }
  rewrite Hs'. clear Hs' s'.
  case_bool_decide as Hact; cbn [with_glowFrame with_active m_active
    m_glowFrame m_queue m_disabled].
  - split; [done|]. split; [done|]. do 3 (split; [done|]).
    intros _ vl Hwf.
    rewrite (injectGBA_renderer _ vl Hwf).
    cbn [with_glowFrame with_active m_active LayerId.none LayerId.type].
    by case_bool_decide.
  - split; [done|]. split; [done|]. by do 3 (split; [done|]).
Qed.

End Highlights.

(** ** Re-rendering *)

Section Rerender.
Context `{Collaborators}.

Lemma injectGB_id s vl : injectGB s vl = vl.
Proof. unfold injectGB. induction (m_queue s); simpl; done. Qed.

Lemma inject_calls p s vl :
  calls (inject p s vl) = calls vl ++ passCalls p s.
Proof.
  destruct p; simpl; rewrite injectGB_id.
  - apply injectGBA_calls.
  - by rewrite app_nil_r.
Qed.

Lemma inject_videoLog p s vl : videoLog (inject p s vl) = videoLog vl.
Proof.
  destruct p; simpl; rewrite injectGB_id; [apply injectGBA_videoLog | done].
Qed.

Lemma inject_wf p s vl :
  Renderer.wf (renderer vl) -> Renderer.wf (renderer (inject p s vl)).
Proof.
  intros Hwf. destruct p; simpl; rewrite injectGB_id; [|done].
  rewrite (injectGBA_renderer s vl Hwf). cbv zeta.
  case_bool_decide; [|done].
  destruct (LayerId.type (m_active s)); try done;
    unfold Renderer.wf; simpl; by rewrite length_store.
Qed.

(** A pass settles every field of the renderer that it reads: a second
    pass for the same active layer, queue and glow counter ends with the
    same renderer, whatever the first one started from. *)
Lemma inject_renderer_stable p s s' vl vl' :
  Renderer.wf (renderer vl) -> Renderer.wf (renderer vl') ->
  m_active s' = m_active s -> id <$> m_queue s' = id <$> m_queue s ->
  m_glowFrame s' = m_glowFrame s ->
  (p = PLATFORM_GB -> renderer vl' = renderer vl) ->
  renderer (inject p s' vl') = renderer (inject p s vl).
Proof.
  intros Hwf Hwf' Ha Hq Hg Hgb. destruct p; simpl; rewrite !injectGB_id.
  - rewrite (injectGBA_renderer s vl Hwf), (injectGBA_renderer s' vl' Hwf').
    cbv zeta. by rewrite Ha, Hq, Hg.
  - by apply Hgb.
Qed.

Lemma sinceReset_fold acc cs :
  Reset ∉ cs ->
  foldl (fun acc c => match c with Reset => [] | _ => acc ++ [c] end) acc cs
  = acc ++ cs.
Proof.
  revert acc. induction cs as [|c cs IH]; intros acc Hno; simpl.
  - by rewrite app_nil_r.
  - apply not_elem_of_cons in Hno as [Hc Hcs].
    rewrite IH by done. destruct c; try done; by rewrite <- app_assoc.
Qed.

Lemma sinceReset_after_reset pre cs :
  Reset ∉ cs -> sinceReset (pre ++ Reset :: cs) = cs.
Proof.
  intros Hno. unfold sinceReset. rewrite foldl_app. simpl.
  by rewrite sinceReset_fold.
Qed.

Lemma passCalls_no_reset p s : Reset ∉ passCalls p s.
Proof.
  destruct p; simpl; [|apply not_elem_of_nil].
  intros Hin. apply elem_of_cons in Hin as [Hin|Hin]; [done|].
  apply elem_of_app in Hin as [Hin|Hin].
  - apply list_elem_of_bind in Hin as (layer & Hc & _).
    unfold layerDirectives in Hc.
    destruct (LayerId.type (id layer)); try (by apply not_elem_of_nil in Hc).
    + by apply list_elem_of_singleton in Hc.
    + destruct (enabled layer); simpl in Hc;
        [by apply not_elem_of_nil in Hc|].
      by apply list_elem_of_singleton in Hc.
  - by apply list_elem_of_singleton in Hin.
Qed.

(** The frame of a re-render: drawn from the log, from the calls of
    this pass alone, and from the renderer as this pass leaves it. *)
Lemma frameOf_inject_reset p s vl :
  frameOf (inject p s (reset vl)) =
  replay (videoLog vl) (passCalls p s) (renderer (inject p s (reset vl))).
Proof.
  unfold frameOf. rewrite inject_videoLog, inject_calls.
  unfold reset, call. cbn [calls videoLog].
  rewrite <- app_assoc. cbn [app].
  by rewrite sinceReset_after_reset by apply passCalls_no_reset.
Qed.

End Rerender.

Section Invalidate.
Context `{Collaborators}.

Lemma inject_ext p s s' vl :
  m_queue s' = m_queue s -> m_active s' = m_active s ->
  m_glowFrame s' = m_glowFrame s ->
  ui_disableScanline s' = ui_disableScanline s ->
  inject p s' vl = inject p s vl.
Proof.
  intros Hq Ha Hg Hd.
  destruct p; unfold inject, injectGB, injectGBA; by rewrite ?Hq, ?Ha, ?Hg, ?Hd.
Qed.

(** What [invalidateQueue] leaves alone. *)
Lemma invalidateQueue_frame ctl dims s :
  let s' := invalidateQueue ctl dims s in
  m_queue s' = m_queue s /\ m_disabled s' = m_disabled s /\
  m_active s' = m_active s /\ m_glowFrame s' = m_glowFrame s /\
  ui_freeze s' = ui_freeze s /\
  ui_disableScanline s' = ui_disableScanline s /\
  ui_magnification s' = ui_magnification s /\
  m_dims s' = (if QSize.isValid dims then dims else m_dims s).
Proof.
  unfold invalidateQueue, composite, syncList, rerun, updateRendered.
  destruct (QSize.isValid dims); simpl;
    destruct (m_vl s); simpl;
    destruct (m_framebuffer s); simpl;
    destruct (ui_freeze s) eqn:Hf; simpl; rewrite ?Hf; simpl; by rewrite ?Hf.
Qed.

(** With a core loaded and its frame buffer in place, the composite is
    the frame of this re-render, scaled. *)
Lemma invalidateQueue_loaded ctl s vl fb :
  m_vl s = Some vl -> m_framebuffer s = Some fb ->
  let s' := invalidateQueue ctl noSize s in
  let vl' := inject (platform ctl) s (reset vl) in
  m_vl s' = Some (runFrame vl') /\
  m_framebuffer s' = Some (frameOf vl') /\
  m_composited s' =
    scaled (QSize.times (m_dims s) (ui_magnification s)) (frameOf vl') /\
  ui_compositedView s' = m_composited s'.
Proof.
  intros Hvl Hfb. unfold invalidateQueue, composite, syncList, rerun.
  simpl. rewrite Hvl. simpl. rewrite Hfb. simpl. done.
Qed.

End Invalidate.

(** ** Toggling *)

Section Toggle.
Context `{Collaborators}.

Lemma layerAt_Some queue row layer :
  layerAt queue row = Some layer ->
  0 <= row /\ queue !! Z.to_nat row = Some layer.
Proof.
  unfold layerAt. destruct (Z.ltb_spec row 0); [done|]. by split.
Qed.

Lemma layerAt_insert queue row layer layer' :
  layerAt queue row = Some layer ->
  layerAt (<[Z.to_nat row := layer']> queue) row = Some layer'.
Proof.
  intros [Hrow Hl]%layerAt_Some. unfold layerAt.
  destruct (Z.ltb_spec row 0); [lia|].
  apply list_lookup_insert_eq. by eapply lookup_lt_Some.
Qed.

Lemma toggleLayer_spec row checked s layer :
  layerAt (m_queue s) row = Some layer ->
  toggleLayer row checked s =
  with_disabled
    (if checked then m_disabled s ∖ {[ id layer ]}
     else {[ id layer ]} ∪ m_disabled s)
    (with_queue (<[Z.to_nat row := set_enabled checked layer]> (m_queue s)) s).
Proof.
  intros Hl. unfold toggleLayer. rewrite Hl. by destruct checked.
Qed.

(** C4.  After the check-box handler has run for a row of the queue,
    and after [disableLayer] has found a layer under a point, the layer
    acted on is enabled exactly when its identity is not in the
    disabled set: checking removes the identity, unchecking and
    disabling insert it. *)
Theorem toggle_keeps_enabled_in_step (ctl : CoreController) (s : FrameView) :
  (forall row checked layer,
     layerAt (m_queue s) row = Some layer ->
     let s' := itemChanged ctl row checked s in
     exists layer',
       layerAt (m_queue s') row = Some layer' /\
       id layer' = id layer /\ enabled layer' = checked /\
       m_disabled s' =
         (if checked then m_disabled s ∖ {[ id layer ]}
          else {[ id layer ]} ∪ m_disabled s) /\
       enabled layer' = negb (bool_decide (id layer' ∈ m_disabled s'))) /\
  (forall coord i,
     lookupLayer (m_queue s) (m_disabled s) coord = Some i ->
     let s' := disableLayer coord s in
     exists layer layer',
       m_queue s !! i = Some layer /\ m_queue s' !! i = Some layer' /\
       id layer' = id layer /\ enabled layer' = false /\
       m_disabled s' = {[ id layer ]} ∪ m_disabled s /\
       enabled layer' = negb (bool_decide (id layer' ∈ m_disabled s'))).
Proof.
  split.
  - intros row checked layer Hl s'. subst s'. unfold itemChanged.
    destruct (invalidateQueue_frame ctl noSize (toggleLayer row checked s))
      as (Hq & Hd & _).
    rewrite Hq, Hd, (toggleLayer_spec row checked s layer Hl).
    cbn [with_disabled with_queue m_queue m_disabled].
    exists (set_enabled checked layer).
    split; [by eapply layerAt_insert|]. do 3 (split; [done|]).
    destruct checked; simpl; symmetry.
    + apply negb_true_iff, bool_decide_eq_false. set_solver.
    + apply negb_false_iff, bool_decide_eq_true. set_solver.
  - intros coord i Hlook s'. subst s'.
    destruct (lookupLayer_Some _ _ _ _ Hlook) as (layer & Hl & _).
    unfold disableLayer. rewrite Hlook, Hl.
    cbn [with_disabled with_queue m_queue m_disabled].
    exists layer, (set_enabled false layer).
    split; [done|].
    split; [apply list_lookup_insert_eq; by eapply lookup_lt_Some|].
    do 3 (split; [done|]). simpl. symmetry.
    apply negb_false_iff, bool_decide_eq_true. set_solver.
Qed.

Lemma set_enabled_back layer :
  enabled layer = true -> set_enabled true (set_enabled false layer) = layer.
Proof. destruct layer; simpl; by intros ->. Qed.

(** C6.  A core is loaded and the layer of a row is on.  Unchecking the
    row and checking it again, with no rotation of the log in between,
    puts the queue and the disabled set back as they were, and the
    frame in the buffer and the composite shown are again those of the
    re-render before the two toggles -- however the live picture moved
    meanwhile. *)
Theorem toggle_round_trip (ctl0 ctl1 ctl2 : CoreController) (s : FrameView)
    (vl : mCore) (fb : QPixmap.t) (row : Z) (layer : Layer) :
  m_vl s = Some vl -> m_framebuffer s = Some fb ->
  Renderer.wf (renderer vl) ->
  platform ctl1 = platform ctl0 -> platform ctl2 = platform ctl0 ->
  layerAt (m_queue s) row = Some layer ->
  enabled layer = true -> id layer ∉ m_disabled s ->
  let before := invalidateQueue ctl0 noSize s in
  let off := itemChanged ctl1 row false before in
  let after := itemChanged ctl2 row true off in
  layerAt (m_queue off) row = Some (set_enabled false layer) /\
  id layer ∈ m_disabled off /\
  m_queue after = m_queue before /\
  m_disabled after = m_disabled before /\
  m_framebuffer after = m_framebuffer before /\
  m_composited after = m_composited before /\
  ui_compositedView after = ui_compositedView before.
Proof.
  intros Hvl Hfb Hwf Hp1 Hp2 Hl Hen Hnot before off after.
  assert (Hbefore : before = invalidateQueue ctl0 noSize s) by reflexivity.
  assert (Hoff : off = invalidateQueue ctl1 noSize
                         (toggleLayer row false before)) by reflexivity.
  assert (Hafter : after = invalidateQueue ctl2 noSize
                             (toggleLayer row true off)) by reflexivity.
  clearbody before off after.
  (* the re-render before the toggles *)
  pose proof (invalidateQueue_frame ctl0 noSize s) as F0.
  pose proof (invalidateQueue_loaded ctl0 s vl fb Hvl Hfb) as L0.
  cbv zeta in F0, L0. rewrite <- Hbefore in F0, L0.
  destruct F0 as (Hq0 & Hd0 & Ha0 & Hg0 & _ & Hs0 & Hm0 & Hdim0).
  destruct L0 as (Hvl0 & Hfb0 & Hc0 & Hv0).
  simpl in Hdim0.
  remember (inject (platform ctl0) s (reset vl)) as vl0 eqn:Evl0.
  (* unchecking *)
  assert (Hl0 : layerAt (m_queue before) row = Some layer) by by rewrite Hq0.
  remember (toggleLayer row false before) as t1 eqn:Et1.
  assert (Ht1 : t1 = with_disabled ({[ id layer ]} ∪ m_disabled before)
            (with_queue (<[Z.to_nat row := set_enabled false layer]>
                           (m_queue before)) before)).
  { rewrite Et1. apply (toggleLayer_spec row false before layer Hl0). }
  assert (Hvt1 : m_vl t1 = Some (runFrame vl0)) by by rewrite Ht1.
  assert (Hft1 : m_framebuffer t1 = Some (frameOf vl0)) by by rewrite Ht1.
  pose proof (invalidateQueue_frame ctl1 noSize t1) as F1.
  pose proof (invalidateQueue_loaded ctl1 t1 _ _ Hvt1 Hft1) as L1.
  cbv zeta in F1, L1. rewrite <- Hoff in F1, L1.
  destruct F1 as (Hq1 & Hd1 & Ha1 & Hg1 & _ & Hs1 & Hm1 & Hdim1).
  destruct L1 as (Hvl1 & Hfb1 & _ & _).
  simpl in Hdim1.
  remember (inject (platform ctl1) t1 (reset (runFrame vl0))) as vl1 eqn:Evl1.
  assert (Hqoff : m_queue off =
            <[Z.to_nat row := set_enabled false layer]> (m_queue before))
    by by rewrite Hq1, Ht1.
  assert (Hdoff : m_disabled off = {[ id layer ]} ∪ m_disabled before)
    by by rewrite Hd1, Ht1.
  assert (Hl1 : layerAt (m_queue off) row = Some (set_enabled false layer)).
  { rewrite Hqoff. by eapply layerAt_insert. }
  (* checking again *)
  remember (toggleLayer row true off) as t2 eqn:Et2.
  assert (Ht2 : t2 = with_disabled
            (m_disabled off ∖ {[ id (set_enabled false layer) ]})
            (with_queue (<[Z.to_nat row :=
                             set_enabled true (set_enabled false layer)]>
                           (m_queue off)) off)).
  { rewrite Et2. apply (toggleLayer_spec row true off _ Hl1). }
  assert (Hvt2 : m_vl t2 = Some (runFrame vl1)) by by rewrite Ht2.
  assert (Hft2 : m_framebuffer t2 = Some (frameOf vl1)) by by rewrite Ht2.
  pose proof (invalidateQueue_frame ctl2 noSize t2) as F2.
  pose proof (invalidateQueue_loaded ctl2 t2 _ _ Hvt2 Hft2) as L2.
  cbv zeta in F2, L2. rewrite <- Hafter in F2, L2.
  destruct F2 as (Hq2 & Hd2 & Ha2 & Hg2 & _ & Hs2 & Hm2 & Hdim2).
  destruct L2 as (_ & Hfb2 & Hc2 & Hv2).
  simpl in Hdim2.
  assert (Hqt2 : m_queue t2 = m_queue s).
  { rewrite Ht2. cbn [with_disabled with_queue m_queue].
    rewrite Hqoff, list_insert_insert_eq, set_enabled_back by done.
    rewrite Hq0. apply list_insert_id. by apply layerAt_Some in Hl as [_ ?]. }
  assert (Hdt2 : m_disabled t2 = m_disabled s).
  { rewrite Ht2. cbn [with_disabled with_queue m_disabled].
    rewrite Hdoff, Hd0. simpl. set_solver. }
  assert (Hsame : m_active t2 = m_active s /\ m_glowFrame t2 = m_glowFrame s /\
                  ui_disableScanline t2 = ui_disableScanline s /\
                  m_dims t2 = m_dims s /\
                  ui_magnification t2 = ui_magnification s).
  { rewrite Ht2. cbn [with_disabled with_queue m_active m_glowFrame
      ui_disableScanline m_dims ui_magnification].
    rewrite Ha1, Hg1, Hs1, Hdim1, Hm1, Ht1.
    cbn [with_disabled with_queue m_active m_glowFrame
      ui_disableScanline m_dims ui_magnification].
    by rewrite Ha0, Hg0, Hs0, Hdim0, Hm0. }
  destruct Hsame as (Hat & Hgt & Hst & Hdimt & Hmt).
  (* the three re-renders draw the same frame *)
  assert (Hframe : frameOf (inject (platform ctl2) t2 (reset (runFrame vl1)))
                   = frameOf vl0).
  { rewrite Evl0, !frameOf_inject_reset, Hp2.
    assert (Hcalls : passCalls (platform ctl0) t2 = passCalls (platform ctl0) s).
    { destruct (platform ctl0); simpl; [|done]. by rewrite Hqt2, Hst. }
    rewrite Hcalls.
    assert (Hwf0 : Renderer.wf (renderer vl0))
      by (rewrite Evl0; by apply inject_wf).
    assert (Hlog : videoLog (runFrame vl1) = videoLog vl).
    { simpl. rewrite Evl1, inject_videoLog. simpl.
      by rewrite Evl0, inject_videoLog. }
    rewrite Hlog. f_equal.
    apply inject_renderer_stable; try done.
    - simpl. rewrite Evl1. by apply inject_wf.
    - by rewrite Hqt2.
    - intros Hgb. simpl. rewrite Evl1, Evl0, Hp1, Hgb. simpl.
      by rewrite !injectGB_id. }
  split; [done|]. split; [rewrite Hdoff; set_solver|].
  split; [by rewrite Hq2, Hqt2, Hq0|].
  split; [by rewrite Hd2, Hdt2, Hd0|].
  assert (Hcomp : m_composited after = m_composited before).
  { by rewrite Hc2, Hc0, Hframe, Hdimt, Hmt. }
  split; [by rewrite Hfb2, Hfb0, Hframe|].
  split; [done|]. by rewrite Hv2, Hv0, Hcomp.
Qed.

End Toggle.

(** ** Decomposition *)

Section Decompose.
Context `{Collaborators}.

Lemma appendSprite_built ctl disabled priority sprite queue :
  0 <= sprite < 128 ->
  Forall builtLayer queue ->
  Forall builtLayer (appendSprite ctl disabled priority sprite queue).
Proof.
  intros Hs Hq. unfold appendSprite. case_match; [done|].
  apply Forall_app. split; [done|]. apply Forall_singleton.
  unfold withMask, builtLayer, indexInRange.
  case_match; simpl; (split; [by left | lia]).
Qed.

Lemma appendBackground_built ctl disabled dispcnt mode priority bg queue :
  0 <= bg < 4 ->
  Forall builtLayer queue ->
  Forall builtLayer
    (appendBackground ctl disabled dispcnt mode priority bg queue).
Proof.
  intros Hs Hq. unfold appendBackground.
  case_match; [done|]. case_match; [done|].
  apply Forall_app. split; [done|]. apply Forall_singleton.
  unfold withMask, builtLayer, indexInRange.
  case_match; simpl; (split; [by right | lia]).
Qed.

Lemma decomposeGBA_shape ctl disabled :
  exists queue,
    decomposeGBA ctl disabled = queue ++ [backdropLayer ctl disabled] /\
    Forall builtLayer queue.
Proof.
  unfold decomposeGBA. eexists. split; [reflexivity|].
  apply (forRange_ind (Forall builtLayer)); [by apply Forall_nil|].
  intros priority queue _ Hq.
  apply (forRange_ind (Forall builtLayer)).
  - apply (forRange_ind (Forall builtLayer)); [done|].
    intros sprite q Hs Hq'. by apply appendSprite_built.
  - intros bg q Hb Hq'. by apply appendBackground_built.
Qed.

Lemma updateTilesGBA_queue ctl s :
  ui_freeze s = false ->
  m_queue (updateTilesGBA ctl s) = decomposeGBA ctl (m_disabled s).
Proof.
  intros Hf. unfold updateTilesGBA. rewrite Hf.
  destruct (invalidateQueue_frame ctl
    (QSize.mk GBA_VIDEO_HORIZONTAL_PIXELS GBA_VIDEO_VERTICAL_PIXELS)
    (updateRendered ctl
       (with_queue (decomposeGBA ctl (m_disabled s))
          (with_gbaDispcnt (io ctl (Z.shiftr REG_DISPCNT 1))
             (with_queue [] s))))) as (Hq & _).
  cbv zeta. cbn [with_queue with_gbaDispcnt m_disabled] in *.
  rewrite Hq. unfold updateRendered. simpl. by rewrite Hf.
Qed.

Lemma updateTilesGB_queue ctl s :
  ui_freeze s = false -> m_queue (updateTilesGB ctl s) = [].
Proof.
  intros Hf. unfold updateTilesGB. rewrite Hf.
  destruct (invalidateQueue_frame ctl (screenDimensions ctl)
    (updateRendered ctl (with_queue [] s))) as (Hq & _).
  cbv zeta. rewrite Hq. unfold updateRendered. simpl. by rewrite Hf.
Qed.

(** A queue built by [updateTilesGBA] has its indices in range, which
    is what the statements about the highlight flags ask of a queue. *)
Lemma updateTilesGBA_in_range ctl s :
  ui_freeze s = false ->
  Forall (fun layer => indexInRange (id layer))
         (m_queue (updateTilesGBA ctl s)).
Proof.
  intros Hf. rewrite (updateTilesGBA_queue ctl s Hf).
  destruct (decomposeGBA_shape ctl (m_disabled s)) as (queue & -> & Hb).
  apply Forall_app. split.
  - eapply Forall_impl; [exact Hb|]. by intros l [_ ?].
  - by apply Forall_singleton.
Qed.

(** Every layer of a built queue is enabled exactly when its identity
    is not in the disabled set. *)
Lemma updateTilesGBA_enabled ctl s :
  ui_freeze s = false ->
  Forall (fun layer =>
            enabled layer = negb (bool_decide (id layer ∈ m_disabled s)))
         (m_queue (updateTilesGBA ctl s)).
Proof.
  intros Hf. rewrite (updateTilesGBA_queue ctl s Hf).
  set (P := fun layer : Layer =>
              enabled layer = negb (bool_decide (id layer ∈ m_disabled s))).
  unfold decomposeGBA. apply Forall_app. split; [|by apply Forall_singleton].
  apply (forRange_ind (Forall P)); [by apply Forall_nil|].
  intros priority queue _ Hq.
  apply (forRange_ind (Forall P)).
  - apply (forRange_ind (Forall P)); [done|].
    intros sprite q _ Hq'. unfold appendSprite. case_match; [done|].
    apply Forall_app. split; [done|]. apply Forall_singleton.
    unfold P, withMask. by case_match.
  - intros bg q _ Hq'. unfold appendBackground.
    case_match; [done|]. case_match; [done|].
    apply Forall_app. split; [done|]. apply Forall_singleton.
    unfold P, withMask. by case_match.
Qed.

Lemma filter_backdrop_built queue :
  Forall builtLayer queue -> filter (fun l => isBackdrop l = true) queue = [].
Proof.
  induction 1 as [|layer queue [Hty _] _ IH]; [done|].
  rewrite filter_cons_False; [done|].
  unfold isBackdrop. rewrite bool_decide_eq_true.
  destruct Hty as [-> | ->]; done.
Qed.

(** C5, as the code has it.  A pass of [updateTilesGBA] that is not
    frozen leaves a queue that ends in the backdrop layer, which does
    not repeat, and holds no other backdrop: before it come only
    sprites and backgrounds.  A pass of [updateTilesGB] leaves the queue
    empty. *)
Theorem updateTiles_backdrop_last (ctl : CoreController) (s : FrameView) :
  ui_freeze s = false ->
  (exists queue backdrop,
     m_queue (updateTilesGBA ctl s) = queue ++ [backdrop] /\
     id backdrop = LayerId.backdrop /\ repeats backdrop = false /\
     Forall (fun l => LayerId.type (id l) <> LayerId.BACKDROP) queue /\
     length (filter (fun l => isBackdrop l = true)
                    (m_queue (updateTilesGBA ctl s))) = 1%nat) /\
  m_queue (updateTilesGB ctl s) = [].
Proof.
  intros Hf. split; [|by apply updateTilesGB_queue].
  rewrite (updateTilesGBA_queue ctl s Hf).
  destruct (decomposeGBA_shape ctl (m_disabled s)) as (queue & -> & Hb).
  exists queue, (backdropLayer ctl (m_disabled s)).
  split; [done|]. split; [done|]. split; [done|]. split.
  - eapply Forall_impl; [exact Hb|]. intros l [[Hty | Hty] _]; by rewrite Hty.
  - rewrite filter_app, filter_backdrop_built by done. reflexivity.
Qed.

(** C8.  With the freeze box checked, either [updateTiles] returns at
    once: the view, and with it the queue, is as it was. *)
Theorem updateTiles_frozen (ctl : CoreController) (s : FrameView) :
  ui_freeze s = true ->
  updateTilesGBA ctl s = s /\ updateTilesGB ctl s = s /\
  m_queue (updateTilesGBA ctl s) = m_queue s /\
  m_queue (updateTilesGB ctl s) = m_queue s.
Proof.
  intros Hf. unfold updateTilesGBA, updateTilesGB. by rewrite Hf.
Qed.

(** C9.  With no core loaded, [invalidateQueue] loads none and leaves
    the frame buffer alone; and whenever the frame buffer is null, the
    composite is the rendered image -- refreshed from the live core
    unless frozen -- scaled to the view. *)
Theorem invalidateQueue_without_core (ctl : CoreController) (dims : QSize.t)
    (s : FrameView) :
  let s' := invalidateQueue ctl dims s in
  (m_vl s = None -> m_vl s' = None /\ m_framebuffer s' = m_framebuffer s) /\
  (m_framebuffer s = None ->
     m_framebuffer s' = None /\
     m_rendered s' = (if ui_freeze s then m_rendered s else getPixels ctl) /\
     m_composited s' =
       scaled (QSize.times (m_dims s') (ui_magnification s')) (m_rendered s') /\
     ui_compositedView s' = m_composited s').
Proof.
  unfold invalidateQueue, composite, syncList, rerun, updateRendered.
  split.
  - intros Hvl.
    destruct (QSize.isValid dims); simpl; rewrite Hvl; simpl;
      destruct (m_framebuffer s) eqn:Hfb; simpl;
      destruct (ui_freeze s) eqn:Hf; simpl; by rewrite ?Hf.
  - intros Hfb.
    destruct (QSize.isValid dims); simpl;
      destruct (m_vl s); simpl; rewrite Hfb; simpl;
      destruct (ui_freeze s) eqn:Hf; simpl; by rewrite ?Hf.
Qed.

End Decompose.

(** * Further properties of the code *)

(** ** The list of layers *)

Lemma syncItem_take active items i layer :
  (i <= length items)%nat ->
  (S i <= length (syncItem active items i layer))%nat /\
  take (S i) (syncItem active items i layer) =
  take i items ++ [rowOf active i layer].
Proof.
  intros Hi. unfold syncItem. fold (rowOf active i layer).
  destruct (Nat.leb_spec (length items) i) as [Hle|Hlt].
  - assert (length items = i) as <- by lia.
    rewrite length_app. split; [simpl; lia|].
    rewrite take_ge by (rewrite length_app; simpl; lia).
    by rewrite take_ge by lia.
  - rewrite length_insert. split; [lia|].
    destruct (lookup_lt_is_Some_2 items i Hlt) as [old Hold].
    rewrite (take_S_r _ _ (rowOf active i layer))
      by (by apply list_lookup_insert_eq).
    by rewrite take_insert_ge by lia.
Qed.

Lemma syncFrom_rows active queue : forall items i,
  (i <= length items)%nat ->
  take (i + length queue) (syncFrom active items i queue) =
  take i items ++ imap (fun j => rowOf active (i + j)) queue.
Proof.
  induction queue as [|layer rest IH]; intros items i Hi.
  - simpl. by rewrite Nat.add_0_r, app_nil_r.
  - destruct (syncItem_take active items i layer Hi) as [Hlen Htake].
    cbn [syncFrom length].
    replace (i + S (length rest))%nat with (S i + length rest)%nat by lia.
    rewrite (IH _ (S i) Hlen), Htake, <- app_assoc, imap_cons.
    cbn [app]. rewrite Nat.add_0_r. do 2 f_equal.
    apply imap_ext. intros j x _. simpl. f_equal. lia.
Qed.

Section ListRows.
Context `{Collaborators}.

Lemma syncList_rows t :
  ui_queue (syncList t) = imap (rowOf (m_active t)) (m_queue t).
Proof.
  unfold syncList. cbn [with_items ui_queue].
  pose proof (syncFrom_rows (m_active t) (m_queue t) (ui_queue t) 0%nat
                ltac:(lia)) as Hrows.
  simpl in Hrows. rewrite Hrows. apply imap_ext. by intros.
Qed.

Lemma composite_rows ctl t : ui_queue (composite ctl t) = ui_queue t.
Proof.
  unfold composite, updateRendered.
  destruct (m_framebuffer t); [done|]. by destruct (ui_freeze t).
Qed.

Lemma rerun_model ctl t :
  m_queue (rerun ctl t) = m_queue t /\ m_active (rerun ctl t) = m_active t.
Proof. unfold rerun. by destruct (m_vl t). Qed.

(** X1.  Whatever rows the list held, after [invalidateQueue] it has one
    row per layer of the queue, in queue order: the text is the layer's
    readable name, the box is checked when the layer is on, the user
    data is the position, and the row is selected when the layer is the
    active one. *)
Theorem invalidateQueue_rows_of_queue (ctl : CoreController)
    (dims : QSize.t) (s : FrameView) :
  ui_queue (invalidateQueue ctl dims s) =
  imap (rowOf (m_active s)) (m_queue s).
Proof.
  unfold invalidateQueue. rewrite composite_rows, syncList_rows.
  destruct (rerun_model ctl (if QSize.isValid dims then with_dims dims s else s))
    as [-> ->].
  by destruct (QSize.isValid dims).
Qed.

(** X2.  In a list just refreshed, checking or unchecking a row through
    the handler, with the user data that row carries, changes the box of
    that row and nothing else in the list, and the layer at the row's
    position takes the new state. *)
Theorem itemChanged_updates_its_row (ctl ctl' : CoreController)
    (dims : QSize.t) (s : FrameView) (i : nat) (item : QListWidgetItem)
    (checked : bool) :
  let s0 := invalidateQueue ctl dims s in
  ui_queue s0 !! i = Some item ->
  let s1 := itemChanged ctl' (data item) checked s0 in
  ui_queue s1 =
    <[i := mkItem (text item) (flags item) checked (data item)
                  (selected item)]> (ui_queue s0) /\
  exists layer, m_queue s0 !! i = Some layer /\
    m_queue s1 = <[i := set_enabled checked layer]> (m_queue s0).
Proof.
  intros s0 Hitem s1.
  assert (Hrows0 : ui_queue s0 = imap (rowOf (m_active s0)) (m_queue s0)).
  { subst s0. unfold invalidateQueue.
    rewrite composite_rows, syncList_rows.
    destruct (invalidateQueue_frame ctl dims s) as (Hq & _ & Ha & _).
    unfold invalidateQueue in Hq, Ha. rewrite Hq, Ha.
    destruct (rerun_model ctl
                (if QSize.isValid dims then with_dims dims s else s))
      as [-> ->].
    by destruct (QSize.isValid dims). }
  rewrite Hrows0, list_lookup_imap in Hitem.
  destruct (m_queue s0 !! i) as [layer|] eqn:Hl; [|done].
  simpl in Hitem. injection Hitem as <-.
  cbn [rowOf data text flags selected] in *.
  assert (Hat : layerAt (m_queue s0) (Z.of_nat i) = Some layer).
  { unfold layerAt. destruct (Z.ltb_spec (Z.of_nat i) 0); [lia|].
    by rewrite Nat2Z.id. }
  assert (Hq1 : m_queue s1 = <[i := set_enabled checked layer]> (m_queue s0)).
  { subst s1. unfold itemChanged.
    destruct (invalidateQueue_frame ctl' noSize
                (toggleLayer (Z.of_nat i) checked s0)) as (Hq & _).
    rewrite Hq, (toggleLayer_spec _ _ _ _ Hat).
    cbn [with_disabled with_queue m_queue]. by rewrite Nat2Z.id. }
  assert (Ha1 : m_active (toggleLayer (Z.of_nat i) checked s0) = m_active s0).
  { rewrite (toggleLayer_spec _ _ _ _ Hat). done. }
  split; [|by exists layer].
  assert (Hrows1 : ui_queue s1 = imap (rowOf (m_active s0)) (m_queue s1)).
  { subst s1. unfold itemChanged, invalidateQueue at 1.
    rewrite composite_rows, syncList_rows.
    destruct (rerun_model ctl' (toggleLayer (Z.of_nat i) checked s0))
      as [Hrq Hra].
    simpl. rewrite Hrq, Hra, Ha1.
    destruct (invalidateQueue_frame ctl' noSize
                (toggleLayer (Z.of_nat i) checked s0)) as (Hq & _).
    unfold itemChanged. by rewrite Hq. }
  rewrite Hrows1, Hq1, Hrows0.
  apply list_eq. intros j.
  destruct (decide (j = i)) as [->|Hne].
  - rewrite list_lookup_imap.
    rewrite !list_lookup_insert_eq
      by (rewrite ?length_imap; by eapply lookup_lt_Some).
    done.
  - rewrite list_lookup_imap.
    rewrite !list_lookup_insert_ne by done.
    by rewrite list_lookup_imap.
Qed.

End ListRows.

(** ** Readable names *)

Lemma readable_named k i :
  k <> LayerId.NONE ->
  LayerId.readable (LayerId.mk k i) =
  if i <? 0 then LayerId.kind_name k
  else LayerId.kind_name k +:+ " " +:+ pretty i.
Proof. by destruct k. Qed.

(** X3.  The readable name tells layers apart as far as the list needs
    it: two identities with the same name have the same kind, and
    the same index unless the kind is [NONE] or both indices are
    negative (the name leaves a negative index out). *)
Theorem readable_inj (a b : LayerId.t) :
  LayerId.readable a = LayerId.readable b ->
  LayerId.type a = LayerId.type b /\
  (LayerId.type a = LayerId.NONE \/
   (LayerId.index a < 0 /\ LayerId.index b < 0) \/
   LayerId.index a = LayerId.index b).
Proof.
  destruct a as [ka ia], b as [kb ib]. cbn [LayerId.type LayerId.index].
  destruct (decide (ka = LayerId.NONE)) as [->|Ha];
    destruct (decide (kb = LayerId.NONE)) as [->|Hb].
  - intros _. split; [done | by left].
  - rewrite (readable_named kb ib Hb). unfold LayerId.readable; simpl.
    destruct kb; try done; destruct (ib <? 0); simpl; discriminate.
  - rewrite (readable_named ka ia Ha). unfold LayerId.readable; simpl.
    destruct ka; try done; destruct (ia <? 0); simpl; discriminate.
  - rewrite (readable_named ka ia Ha), (readable_named kb ib Hb).
    destruct (Z.ltb_spec ia 0), (Z.ltb_spec ib 0);
      destruct ka; try done; destruct kb; try done; simpl;
      intros Heq; try discriminate Heq;
      try (split; [done | right; left; by split]);
      try (simplify_eq; fail).
    all: split; [done | right; right].
    all: simplify_eq; by apply (inj pretty).
Qed.

(** ** The queue a decomposition builds *)

Lemma forRange_append {A : Type} lo n (body : Z -> list A -> list A) q :
  (forall i q, body i q = q ++ body i []) ->
  forRange lo n body q = q ++ (seqZ lo n ≫= fun i => body i []).
Proof.
  intros Happ. unfold forRange. revert q.
  induction (seqZ lo n) as [|i l IH]; intros q; simpl.
  - by rewrite app_nil_r.
  - rewrite IH, (Happ i q), <- app_assoc. done.
Qed.

Lemma StronglySorted_seqZ lo n : StronglySorted Z.lt (seqZ lo n).
Proof.
  destruct (Z.le_gt_cases n 0) as [Hn|Hn];
    [rewrite seqZ_nil by done; constructor|].
  rewrite <- (Z2Nat.id n) by lia. generalize (Z.to_nat n) as k. clear.
  intros k. revert lo. induction k as [|k IH]; intros lo.
  - rewrite seqZ_nil by done. constructor.
  - rewrite seqZ_cons by lia.
    replace (Z.pred (Z.of_nat (S k))) with (Z.of_nat k) by lia.
    constructor; [apply IH|].
    apply Forall_forall. intros x Hx%elem_of_seqZ. lia.
Qed.

(** Pieces whose ranks lie in consecutive windows of width [w], each
    sorted, make a sorted whole. *)
Lemma sorted_bind {A : Type} (rank : A -> Z) (c w : Z) (f : Z -> list A)
    (l : list Z) :
  0 <= w ->
  StronglySorted Z.lt l ->
  (forall i, i ∈ l ->
     StronglySorted (fun a b => rank a < rank b) (f i) /\
     forall x, x ∈ f i -> c + w * i <= rank x < c + w * (i + 1)) ->
  StronglySorted (fun a b => rank a < rank b) (l ≫= f).
Proof.
  intros Hw Hl. induction Hl as [|i l Hl IH Hil]; intros Hf; simpl.
  - constructor.
  - apply StronglySorted_app. split; [|split].
    + intros x y Hx (j & Hy & Hj)%list_elem_of_bind.
      assert (i < j) by (by apply (proj1 (Forall_forall _ _) Hil)).
      destruct (Hf i ltac:(by left)) as [_ Hbi].
      destruct (Hf j ltac:(by right)) as [_ Hbj].
      specialize (Hbi x Hx). specialize (Hbj y Hy). nia.
    + destruct (Hf i) as [Hs _]; [by left | exact Hs].
    + apply IH. intros j Hj. apply Hf. by right.
Qed.

Section BuiltQueue.
Context `{Collaborators}.

Lemma appendSprite_app ctl disabled priority sprite queue :
  appendSprite ctl disabled priority sprite queue =
  queue ++ appendSprite ctl disabled priority sprite [].
Proof. unfold appendSprite. case_match; [by rewrite app_nil_r | done]. Qed.

Lemma appendBackground_app ctl disabled dispcnt mode priority bg queue :
  appendBackground ctl disabled dispcnt mode priority bg queue =
  queue ++ appendBackground ctl disabled dispcnt mode priority bg [].
Proof.
  unfold appendBackground.
  case_match; [by rewrite app_nil_r|]. case_match; [by rewrite app_nil_r|].
  done.
Qed.

(** The loops of [updateTilesGBA] as one list: tier after tier, in each
    the objects by index, then the backgrounds by index; last the
    backdrop. *)
Lemma decomposeGBA_tiers ctl disabled :
  decomposeGBA ctl disabled =
  (seqZ 0 4 ≫= tierLayers ctl disabled) ++ [backdropLayer ctl disabled].
Proof.
  unfold decomposeGBA. f_equal.
  assert (Hbody : forall priority queue,
    forRange 0 4
      (appendBackground ctl disabled (io ctl (Z.shiftr REG_DISPCNT 1))
         (GBARegisterDISPCNTGetMode (io ctl (Z.shiftr REG_DISPCNT 1)))
         priority)
      (forRange 0 128 (appendSprite ctl disabled priority) queue) =
    queue ++ tierLayers ctl disabled priority).
  { intros priority queue.
    rewrite (forRange_append 0 128 (appendSprite ctl disabled priority))
      by (intros; apply appendSprite_app).
    rewrite forRange_append by (intros; apply appendBackground_app).
    unfold tierLayers. by rewrite <- app_assoc. }
  rewrite (forRange_append 0 4
    (fun priority queue =>
       forRange 0 4
         (appendBackground ctl disabled (io ctl (Z.shiftr REG_DISPCNT 1))
            (GBARegisterDISPCNTGetMode (io ctl (Z.shiftr REG_DISPCNT 1)))
            priority)
         (forRange 0 128 (appendSprite ctl disabled priority) queue))).
  - rewrite app_nil_l. apply list_bind_ext; [|done].
    intros p. by rewrite Hbody.
  - intros p q. by rewrite Hbody, (Hbody p []).
Qed.

End BuiltQueue.

Section BuiltQueueOrder.
Context `{Collaborators}.

(** What the object loop appends for one object, and when. *)
Lemma in_appendSprite ctl disabled priority sprite layer :
  layer ∈ appendSprite ctl disabled priority sprite [] <->
  ObjInfo.enabled (lookupObj ctl sprite) = true /\
  ObjInfo.priority (lookupObj ctl sprite) = priority /\
  appendSprite ctl disabled priority sprite [] = [layer] /\
  id layer = LayerId.mk LayerId.SPRITE sprite.
Proof.
  unfold appendSprite.
  destruct (ObjInfo.enabled (lookupObj ctl sprite)); simpl.
  - destruct (Z.eqb_spec (ObjInfo.priority (lookupObj ctl sprite)) priority);
      simpl.
    + rewrite list_elem_of_singleton. split.
      * intros ->. repeat split; try done. unfold withMask. by case_match.
      * intros (_ & _ & Heq & _). by injection Heq as <-.
    + split; [by intros ?%not_elem_of_nil | by intros (_ & ? & _)].
  - split; [by intros ?%not_elem_of_nil | by intros (? & _)].
Qed.

Lemma in_appendBackground ctl disabled dispcnt mode priority bg layer :
  layer ∈ appendBackground ctl disabled dispcnt mode priority bg [] <->
  bgEnabled dispcnt bg = true /\
  GBARegisterBGCNTGetPriority (io ctl (Z.shiftr REG_BG0CNT 1 + bg))
    = priority /\
  appendBackground ctl disabled dispcnt mode priority bg [] = [layer] /\
  id layer = LayerId.mk LayerId.BACKGROUND bg.
Proof.
  unfold appendBackground.
  destruct (bgEnabled dispcnt bg); simpl.
  - destruct (Z.eqb_spec
                (GBARegisterBGCNTGetPriority
                   (io ctl (Z.shiftr REG_BG0CNT 1 + bg))) priority); simpl.
    + rewrite list_elem_of_singleton. split.
      * intros ->. repeat split; try done. unfold withMask. by case_match.
      * intros (_ & _ & Heq & _). by injection Heq as <-.
    + split; [by intros ?%not_elem_of_nil | by intros (_ & ? & _)].
  - split; [by intros ?%not_elem_of_nil | by intros (? & _)].
Qed.

Lemma sorted_at_most_one {A : Type} (R : relation A) (l : list A) :
  (length l <= 1)%nat -> StronglySorted R l.
Proof.
  destruct l as [|x [|y l]]; simpl; intros Hl; try lia; repeat constructor.
Qed.

Lemma appendSprite_length ctl disabled priority sprite :
  (length (appendSprite ctl disabled priority sprite []) <= 1)%nat.
Proof. unfold appendSprite. case_match; simpl; lia. Qed.

Lemma appendBackground_length ctl disabled dispcnt mode priority bg :
  (length (appendBackground ctl disabled dispcnt mode priority bg []) <= 1)%nat.
Proof. unfold appendBackground. repeat case_match; simpl; lia. Qed.

Lemma tierLayers_sorted ctl disabled priority :
  StronglySorted (fun a b => rankOf ctl (id a) < rankOf ctl (id b))
                 (tierLayers ctl disabled priority) /\
  forall layer, layer ∈ tierLayers ctl disabled priority ->
    0 + 256 * priority <= rankOf ctl (id layer) < 0 + 256 * (priority + 1).
Proof.
  assert (Hsp : forall sprite, sprite ∈ seqZ 0 128 ->
    forall layer, layer ∈ appendSprite ctl disabled priority sprite [] ->
      rankOf ctl (id layer) = 256 * priority + sprite /\ 0 <= sprite < 128).
  { intros sprite Hs%elem_of_seqZ layer (_ & Hp & _ & Hid)%in_appendSprite.
    unfold rankOf, tierOf. rewrite Hid; simpl. lia. }
  assert (Hbg : forall bg, bg ∈ seqZ 0 4 ->
    forall layer,
      layer ∈ appendBackground ctl disabled (io ctl (Z.shiftr REG_DISPCNT 1))
        (GBARegisterDISPCNTGetMode (io ctl (Z.shiftr REG_DISPCNT 1)))
        priority bg [] ->
      rankOf ctl (id layer) = 256 * priority + 128 + bg /\ 0 <= bg < 4).
  { intros bg Hb%elem_of_seqZ layer (_ & Hp & _ & Hid)%in_appendBackground.
    unfold rankOf, tierOf. rewrite Hid; simpl. lia. }
  unfold tierLayers. split.
  - apply StronglySorted_app. split; [|split].
    + intros a b (i & Ha & Hi)%list_elem_of_bind
                 (j & Hb & Hj)%list_elem_of_bind.
      destruct (Hsp i Hi a Ha), (Hbg j Hj b Hb). lia.
    + apply (sorted_bind _ (256 * priority) 1);
        [lia | apply StronglySorted_seqZ|].
      intros i Hi. split.
      * apply sorted_at_most_one, appendSprite_length.
      * intros x Hx. destruct (Hsp i Hi x Hx). lia.
    + apply (sorted_bind _ (256 * priority + 128) 1);
        [lia | apply StronglySorted_seqZ|].
      intros i Hi. split.
      * apply sorted_at_most_one, appendBackground_length.
      * intros x Hx. destruct (Hbg i Hi x Hx). lia.
  - intros layer [Hl|Hl]%elem_of_app.
    + apply list_elem_of_bind in Hl as (i & Hl & Hi).
      destruct (Hsp i Hi layer Hl). lia.
    + apply list_elem_of_bind in Hl as (i & Hl & Hi).
      destruct (Hbg i Hi layer Hl). lia.
Qed.

Lemma decomposeGBA_rank_sorted ctl disabled :
  StronglySorted (fun a b => rankOf ctl (id a) < rankOf ctl (id b))
                 (decomposeGBA ctl disabled).
Proof.
  rewrite decomposeGBA_tiers. apply StronglySorted_app. split; [|split].
  - intros a b (p & Ha & Hp)%list_elem_of_bind Hb%list_elem_of_singleton.
    subst b. apply elem_of_seqZ in Hp.
    destruct (tierLayers_sorted ctl disabled p) as [_ Hbound].
    specialize (Hbound a Ha). unfold rankOf at 2, tierOf; simpl. lia.
  - apply (sorted_bind _ 0 256); [lia | apply StronglySorted_seqZ|].
    intros p _. apply tierLayers_sorted.
  - repeat constructor.
Qed.

(** From the rank back to the order it stands for. *)
Lemma rank_lt_precedes ctl a b :
  builtLayer a ->
  (builtLayer b \/ id b = LayerId.backdrop) ->
  rankOf ctl (id a) < rankOf ctl (id b) -> precedes ctl (id a) (id b).
Proof.
  unfold builtLayer, indexInRange, rankOf, precedes.
  intros [[Ha|Ha] Hra] [[[Hb|Hb] Hrb] | Hb]; rewrite ?Ha, ?Hb in *;
    simpl in *; intros Hlt.
  - destruct (Z.lt_trichotomy (tierOf ctl (id a)) (tierOf ctl (id b)))
      as [?|[?|?]]; [by left | right | lia].
    split; [done|]. right. split; [congruence | lia].
  - destruct (Z.lt_trichotomy (tierOf ctl (id a)) (tierOf ctl (id b)))
      as [?|[?|?]]; [by left | right | lia].
    split; [done|]. by left.
  - left. lia.
  - destruct (Z.lt_trichotomy (tierOf ctl (id a)) (tierOf ctl (id b)))
      as [?|[?|?]]; [by left | lia | lia].
  - destruct (Z.lt_trichotomy (tierOf ctl (id a)) (tierOf ctl (id b)))
      as [?|[?|?]]; [by left | right | lia].
    split; [done|]. right. split; [congruence | lia].
  - left. lia.
Qed.

End BuiltQueueOrder.

Lemma StronglySorted_lookup_lt {A : Type} (R : relation A) (l : list A)
    (i j : nat) (a b : A) :
  StronglySorted R l -> (i < j)%nat ->
  l !! i = Some a -> l !! j = Some b -> R a b.
Proof.
  intros Hs. revert i j. induction Hs as [|x l Hs IH Hx]; intros i j Hij Hi Hj.
  - by rewrite lookup_nil in Hi.
  - destruct j as [|j]; [lia|]. simpl in Hj.
    destruct i as [|i]; simpl in Hi.
    + injection Hi as ->.
      apply (proj1 (Forall_forall _ _) Hx). by eapply list_elem_of_lookup_2.
    + apply (IH i j); [lia | done | done].
Qed.

Section BuiltQueueClaims.
Context `{Collaborators}.

(** X4.  In the queue a pass of [updateTilesGBA] builds, a layer at an
    earlier position always precedes a layer at a later one: its tier is
    lower, or the tier is the same and it is a sprite before a
    background, or tier and kind are the same and its index is lower;
    the backdrop, in a tier after all others, is last.  So no two layers
    of the queue share an identity. *)
Theorem updateTilesGBA_order (ctl : CoreController) (s : FrameView) :
  ui_freeze s = false ->
  (forall (i j : nat) (a b : Layer), (i < j)%nat ->
     m_queue (updateTilesGBA ctl s) !! i = Some a ->
     m_queue (updateTilesGBA ctl s) !! j = Some b ->
     precedes ctl (id a) (id b)) /\
  NoDup (id <$> m_queue (updateTilesGBA ctl s)).
Proof.
  intros Hf. rewrite (updateTilesGBA_queue ctl s Hf).
  pose proof (decomposeGBA_rank_sorted ctl (m_disabled s)) as Hsorted.
  destruct (decomposeGBA_shape ctl (m_disabled s)) as (queue & Hq & Hbuilt).
  rewrite Hq in *.
  assert (Hpre : forall (i j : nat) a b, (i < j)%nat ->
            (queue ++ [backdropLayer ctl (m_disabled s)]) !! i = Some a ->
            (queue ++ [backdropLayer ctl (m_disabled s)]) !! j = Some b ->
            builtLayer a /\
            rankOf ctl (id a) < rankOf ctl (id b) /\
            (builtLayer b \/ id b = LayerId.backdrop)).
  { intros i j a b Hij Hi Hj.
    assert (j < length (queue ++ [backdropLayer ctl (m_disabled s)]))%nat
      as Hjl by (by eapply lookup_lt_Some).
    rewrite length_app in Hjl. simpl in Hjl.
    pose proof Hi as Hi'. rewrite lookup_app_l in Hi' by lia.
    split; [|split].
    - eapply (proj1 (Forall_forall _ _) Hbuilt).
      by eapply list_elem_of_lookup_2.
    - exact (StronglySorted_lookup_lt
               (fun a b => rankOf ctl (id a) < rankOf ctl (id b))
               _ i j a b Hsorted Hij Hi Hj).
    - destruct (decide (j < length queue)%nat) as [Hlt|Hge].
      + left. rewrite lookup_app_l in Hj by lia.
        eapply (proj1 (Forall_forall _ _) Hbuilt).
        by eapply list_elem_of_lookup_2.
      + right. rewrite lookup_app_r in Hj by lia.
        replace (j - length queue)%nat with 0%nat in Hj by lia.
        by injection Hj as <-. }
  split.
  - intros i j a b Hij Hi Hj.
    destruct (Hpre i j a b Hij Hi Hj) as (Ha & Hlt & Hb).
    by apply rank_lt_precedes.
  - apply NoDup_alt. intros i j x Hi Hj.
    rewrite list_lookup_fmap in Hi, Hj.
    destruct ((queue ++ [backdropLayer ctl (m_disabled s)]) !! i)
      as [a|] eqn:Ha; [|done].
    destruct ((queue ++ [backdropLayer ctl (m_disabled s)]) !! j)
      as [b|] eqn:Hb; [|done].
    simpl in Hi, Hj. injection Hi as Hia. injection Hj as Hjb.
    destruct (Nat.lt_trichotomy i j) as [Hlt|[Heq|Hgt]]; [|done|].
    + destruct (Hpre i j a b Hlt Ha Hb) as (_ & Hr & _).
      rewrite Hia, Hjb in Hr. lia.
    + destruct (Hpre j i b a Hgt Hb Ha) as (_ & Hr & _).
      rewrite Hia, Hjb in Hr. lia.
Qed.


End BuiltQueueClaims.

(** ** Clicks *)

Lemma hits_empty_mask disabled coord layer :
  mask layer = QRegion.empty -> hits disabled coord layer = false.
Proof.
  intros Hm. unfold hits, layerRegion. rewrite Hm.
  destruct (repeats layer); simpl; apply andb_false_r.
Qed.

Lemma lookupLayer_lt queue disabled coord i :
  lookupLayer queue disabled coord = Some i -> (i < length queue)%nat.
Proof.
  intros (layer & Hl & _)%lookupLayer_Some. by eapply lookup_lt_Some.
Qed.

Section Clicks.
Context `{Collaborators}.

(** X6.  In a queue built by [updateTilesGBA] the backdrop has the
    empty mask it was appended with, so no point finds it: a layer found
    by [lookupLayer] is a sprite or a background, a click never makes
    the backdrop the active layer and a double click never disables
    it. *)
Theorem backdrop_is_never_hit (ctl : CoreController) (s : FrameView)
    (coord : QPointF.t) :
  ui_freeze s = false ->
  let s' := updateTilesGBA ctl s in
  (forall i, lookupLayer (m_queue s') (m_disabled s') coord = Some i ->
     exists layer, m_queue s' !! i = Some layer /\
       (LayerId.type (id layer) = LayerId.SPRITE \/
        LayerId.type (id layer) = LayerId.BACKGROUND)) /\
  (m_active (selectLayer coord s') = LayerId.backdrop ->
   m_active s' = LayerId.backdrop) /\
  (LayerId.backdrop ∈ m_disabled (disableLayer coord s') ->
   LayerId.backdrop ∈ m_disabled s').
Proof.
  intros Hf s'.
  assert (Hfound : forall i,
    lookupLayer (m_queue s') (m_disabled s') coord = Some i ->
    exists layer, m_queue s' !! i = Some layer /\
      (LayerId.type (id layer) = LayerId.SPRITE \/
       LayerId.type (id layer) = LayerId.BACKGROUND)).
  { intros i (layer & Hl & Hh)%lookupLayer_Some.
    exists layer. split; [done|].
    subst s'. rewrite (updateTilesGBA_queue ctl s Hf) in Hl.
    destruct (decomposeGBA_shape ctl (m_disabled s)) as (queue & Hq & Hbuilt).
    rewrite Hq in Hl.
    apply list_elem_of_lookup_2, elem_of_app in Hl as [Hin|Hin].
    - by destruct (proj1 (Forall_forall _ _) Hbuilt layer Hin) as [? _].
    - apply list_elem_of_singleton in Hin. subst layer.
      by rewrite hits_empty_mask in Hh. }
  split; [exact Hfound|]. split.
  - unfold selectLayer.
    destruct (lookupLayer (m_queue s') (m_disabled s') coord) as [i|] eqn:Hlook;
      [|done].
    destruct (Hfound i eq_refl) as (layer & -> & Hty).
    case_bool_decide; simpl; [done|].
    intros Hb. rewrite Hb in Hty. by destruct Hty.
  - unfold disableLayer.
    destruct (lookupLayer (m_queue s') (m_disabled s') coord) as [i|] eqn:Hlook;
      [|done].
    destruct (Hfound i eq_refl) as (layer & -> & Hty).
    cbn [with_disabled m_disabled].
    intros [Hb%elem_of_singleton | Hb]%elem_of_union; [|done].
    rewrite <- Hb in Hty. by destruct Hty.
Qed.

(** X7.  Once [disableLayer] has switched off the layer it found under
    a point, a second look at the same point passes that layer by: it
    finds a layer further down the queue, of another identity, or
    nothing.  Repeated double clicks so peel layers off one by one. *)
Theorem disableLayer_uncovers (s : FrameView) (coord : QPointF.t) (i : nat) :
  lookupLayer (m_queue s) (m_disabled s) coord = Some i ->
  let s' := disableLayer coord s in
  forall j, lookupLayer (m_queue s') (m_disabled s') coord = Some j ->
    (i < j)%nat /\
    exists layer below,
      m_queue s !! i = Some layer /\ m_queue s !! j = Some below /\
      m_queue s' !! j = Some below /\ id below <> id layer.
Proof.
  intros Hlook s' j Hlook'.
  pose proof (lookupFrom_spec (m_disabled s) coord (m_queue s) 0%nat) as Hs.
  unfold lookupLayer in Hlook. rewrite Hlook in Hs.
  destruct Hs as (i0 & layer & Hi & Hl & Hh & Hmin). simpl in Hi. subst i0.
  assert (Hs' : s' = with_disabled ({[ id layer ]} ∪ m_disabled s)
            (with_queue (<[i := set_enabled false layer]> (m_queue s)) s)).
  { subst s'. unfold disableLayer, lookupLayer. by rewrite Hlook, Hl. }
  rewrite Hs' in Hlook' |- *. cbn [with_disabled with_queue m_queue m_disabled] in *.
  apply lookupLayer_Some in Hlook' as (below & Hb & Hhb).
  apply hits_matches in Hhb as (Hen & Hnd & Hreg).
  assert (Hne : j <> i).
  { intros ->. rewrite list_lookup_insert_eq in Hb
      by (by eapply lookup_lt_Some).
    injection Hb as <-. done. }
  rewrite list_lookup_insert_ne in Hb by done.
  assert (Hold : hits (m_disabled s) coord below = true).
  { apply hits_matches. split; [done|]. split; [set_solver | done]. }
  split.
  - destruct (Nat.lt_trichotomy j i) as [Hlt|[?|?]]; [|done|done].
    rewrite (Hmin j below Hlt Hb) in Hold. done.
  - exists layer, below. rewrite list_lookup_insert_ne by done.
    repeat split; try done. set_solver.
Qed.

End Clicks.

(** ** Masks and placements of built layers *)

Lemma withMask_keeps l :
  id (withMask l) = id l /\ enabled (withMask l) = enabled l /\
  image (withMask l) = image l /\ location (withMask l) = location l /\
  repeats (withMask l) = repeats l.
Proof. unfold withMask. by destruct (QPixmap.hasAlpha (image l)). Qed.

Section Placement.
Context `{Collaborators}.

(** X8.  A layer whose image has no alpha channel gets the full
    rectangle of the image as its mask; placed at whole coordinates
    [(x, y)] and not repeating, it is hit exactly at the points of the
    rectangle of the image's size at [(x, y)], provided it is on and not
    disabled.  Its mask lies inside its image. *)
Theorem opaque_layer_hit_box (l : Layer) (x y : Z)
    (disabled : gset LayerId.t) (coord : QPointF.t) :
  QPixmap.hasAlpha (image l) = false ->
  repeats l = false ->
  location l = QPointF.ofInts x y ->
  (hits disabled coord (withMask l) = true <->
   enabled l = true /\ (id l ∉ disabled) /\
   x <= QPoint.x (clickPoint coord) < x + QPixmap.width (image l) /\
   y <= QPoint.y (clickPoint coord) < y + QPixmap.height (image l)) /\
  maskWithinImage (withMask l).
Proof.
  intros Ha Hr Hloc.
  assert (Hw : withMask l =
            set_mask (QRegion.ofRect 0 0 (QPixmap.width (image l))
                                     (QPixmap.height (image l))) l)
    by (unfold withMask; by rewrite Ha).
  rewrite Hw. split.
  - rewrite hits_matches. unfold matches, layerRegion.
    cbn [set_mask enabled id repeats location image mask].
    rewrite Hr, Hloc. cbn [QPointF.ofInts QPointF.x QPointF.y].
    rewrite !toInt_inject, contains_translated.
    unfold QRegion.contains, QRegion.ofRect, QRect.contains. simpl.
    rewrite orb_false_r, !andb_true_iff, !Z.leb_le, !Z.ltb_lt.
    intuition lia.
  - intros p. cbn [set_mask mask image].
    unfold QRegion.contains, QRegion.ofRect, QRect.contains. simpl.
    rewrite orb_false_r, !andb_true_iff, !Z.leb_le, !Z.ltb_lt.
    lia.
Qed.

Lemma land_9_bits v : 0 <= Z.land v 0x1FF < 512.
Proof.
  change 0x1FF with (Z.ones 9). rewrite Z.land_ones by lia.
  change (2 ^ 9) with 512.
  pose proof (Z.mod_pos_bound v 512 ltac:(lia)). lia.
Qed.

(** X9.  How the built layers are placed.  A sprite layer does not
    repeat and sits at the object's [(x, y)].  A background layer
    repeats; in mode 0 it sits at minus its two scroll registers, each
    cut to nine bits, so between -511 and 0 on either axis; in any other
    mode it sits at the origin.  In both its [enabled] flag is the
    negated membership of its identity in the disabled set. *)
Theorem updateTilesGBA_placement (ctl : CoreController) (s : FrameView)
    (layer : Layer) :
  ui_freeze s = false ->
  layer ∈ m_queue (updateTilesGBA ctl s) ->
  let mode := GBARegisterDISPCNTGetMode (io ctl (Z.shiftr REG_DISPCNT 1)) in
  (forall sprite, id layer = LayerId.mk LayerId.SPRITE sprite ->
     repeats layer = false /\
     location layer =
       QPointF.ofInts (ObjInfo.x (lookupObj ctl sprite))
                      (ObjInfo.y (lookupObj ctl sprite))) /\
  (forall bg, id layer = LayerId.mk LayerId.BACKGROUND bg ->
     repeats layer = true /\
     exists ox oy, location layer = QPointF.ofInts ox oy /\
       -511 <= ox <= 0 /\ -511 <= oy <= 0 /\
       (mode = 0 ->
        ox = - Z.land (io ctl (Z.shiftr REG_BG0HOFS 1 + Z.shiftl bg 1)) 0x1FF /\
        oy = - Z.land (io ctl (Z.shiftr REG_BG0VOFS 1 + Z.shiftl bg 1)) 0x1FF)
       /\ (mode <> 0 -> ox = 0 /\ oy = 0)) /\
  enabled layer = negb (bool_decide (id layer ∈ m_disabled s)).
Proof.
  intros Hf Hin mode.
  pose proof (updateTilesGBA_enabled ctl s Hf) as Hen.
  split; [|split; [|by apply (proj1 (Forall_forall _ _) Hen)]].
  - intros sprite Hid.
    rewrite (updateTilesGBA_queue ctl s Hf), decomposeGBA_tiers in Hin.
    apply elem_of_app in Hin as [Hin|Hin].
    + apply list_elem_of_bind in Hin as (p & Hin & _).
      unfold tierLayers in Hin.
      apply elem_of_app in Hin as [Hin|Hin];
        apply list_elem_of_bind in Hin as (k & Hin & _).
      * pose proof Hin as (_ & _ & _ & Hid')%in_appendSprite.
        rewrite Hid' in Hid. injection Hid as ->.
        unfold appendSprite in Hin. case_match; [by apply not_elem_of_nil in Hin|].
        apply list_elem_of_singleton in Hin. subst layer.
        match goal with |- context [withMask ?l] =>
          destruct (withMask_keeps l) as (_ & _ & _ & -> & ->) end.
        done.
      * apply in_appendBackground in Hin as (_ & _ & _ & Hid').
        rewrite Hid' in Hid. discriminate Hid.
    + apply list_elem_of_singleton in Hin. subst layer. discriminate Hid.
  - intros bg Hid.
    rewrite (updateTilesGBA_queue ctl s Hf), decomposeGBA_tiers in Hin.
    apply elem_of_app in Hin as [Hin|Hin].
    + apply list_elem_of_bind in Hin as (p & Hin & _).
      unfold tierLayers in Hin.
      apply elem_of_app in Hin as [Hin|Hin];
        apply list_elem_of_bind in Hin as (k & Hin & _).
      * apply in_appendSprite in Hin as (_ & _ & _ & Hid').
        rewrite Hid' in Hid. discriminate Hid.
      * pose proof Hin as (_ & _ & _ & Hid')%in_appendBackground.
        rewrite Hid' in Hid. injection Hid as ->.
        unfold appendBackground in Hin.
        case_match; [by apply not_elem_of_nil in Hin|].
        case_match; [by apply not_elem_of_nil in Hin|].
        apply list_elem_of_singleton in Hin. fold mode in Hin.
        pose proof (land_9_bits
          (io ctl (Z.shiftr REG_BG0HOFS 1 + Z.shiftl bg 1))) as Hh.
        pose proof (land_9_bits
          (io ctl (Z.shiftr REG_BG0VOFS 1 + Z.shiftl bg 1))) as Hv.
        destruct (Z.eqb_spec mode 0) as [Hm|Hm].
        -- assert (Hrl : repeats layer = true /\
             location layer = QPointF.ofInts
               (- Z.land (io ctl (Z.shiftr REG_BG0HOFS 1 + Z.shiftl bg 1)) 0x1FF)
               (- Z.land (io ctl (Z.shiftr REG_BG0VOFS 1 + Z.shiftl bg 1)) 0x1FF)).
           { subst layer.
             match goal with |- context [withMask ?l] =>
               destruct (withMask_keeps l) as (_ & _ & _ & -> & ->) end.
             done. }
           destruct Hrl as [Hr Hl]. split; [done|].
           eexists _, _. split; [exact Hl|].
           repeat split; try done; lia.
        -- assert (Hrl : repeats layer = true /\
             location layer = QPointF.ofInts 0 0).
           { subst layer.
             match goal with |- context [withMask ?l] =>
               destruct (withMask_keeps l) as (_ & _ & _ & -> & ->) end.
             done. }
           destruct Hrl as [Hr Hl]. split; [done|].
           exists 0, 0. split; [exact Hl|].
           repeat split; try done; lia.
    + apply list_elem_of_singleton in Hin. subst layer. discriminate Hid.
Qed.

End Placement.

(** ** Re-renders and rebuilds *)

Section RerenderOnce.
Context `{Collaborators}.

Lemma layerDirectives_kinds layer c :
  c ∈ layerDirectives layer -> c <> Reset /\ c <> RunFrame.
Proof.
  unfold layerDirectives.
  destruct (LayerId.type (id layer)); try (by intros ?%not_elem_of_nil).
  - by intros ->%list_elem_of_singleton.
  - destruct (enabled layer); simpl; [by intros ?%not_elem_of_nil|].
    by intros ->%list_elem_of_singleton.
Qed.

(** X10.  With a core loaded, one [invalidateQueue] resets the core once,
    before anything else, and runs one frame, after everything else.  On
    the GBA what lies between is the pass of [injectGBA]; on the Game
    Boy nothing lies between, and the renderer is left as it was. *)
Theorem invalidateQueue_runs_one_frame (ctl : CoreController)
    (dims : QSize.t) (s : FrameView) (vl : mCore) :
  m_vl s = Some vl ->
  exists vl', m_vl (invalidateQueue ctl dims s) = Some vl' /\
    videoLog vl' = videoLog vl /\
    match platform ctl with
    | PLATFORM_GBA =>
        exists ignore,
          calls vl' =
            calls vl ++
            [Reset; InjectionPoint LOGGER_INJECTION_FIRST_SCANLINE] ++
            (m_queue s ≫= layerDirectives) ++
            [IgnoreAfterInjection ignore; RunFrame] /\
          (Reset ∉ m_queue s ≫= layerDirectives) /\
          (RunFrame ∉ m_queue s ≫= layerDirectives)
    | PLATFORM_GB =>
        calls vl' = calls vl ++ [Reset; RunFrame] /\
        renderer vl' = renderer vl
    end.
Proof.
  intros Hvl.
  set (t := if QSize.isValid dims then with_dims dims s else s).
  assert (Ht : m_vl t = Some vl /\ m_queue t = m_queue s /\
               ui_disableScanline t = ui_disableScanline s).
  { subst t. by destruct (QSize.isValid dims). }
  destruct Ht as (Htvl & Htq & Htd).
  exists (runFrame (inject (platform ctl) t (reset vl))).
  split.
  { unfold invalidateQueue, composite, syncList. fold t.
    assert (Hr : m_vl (rerun ctl t) =
                 Some (runFrame (inject (platform ctl) t (reset vl))))
      by (unfold rerun; by rewrite Htvl).
    unfold updateRendered.
    destruct (m_framebuffer (with_items _ (rerun ctl t))); simpl; [done|].
    by destruct (ui_freeze (rerun ctl t)). }
  split; [simpl; by rewrite inject_videoLog|].
  destruct (platform ctl); simpl; rewrite injectGB_id.
  - eexists. rewrite injectGBA_calls, Htq, Htd. simpl.
    split; [rewrite <- !app_assoc; simpl; by rewrite <- !app_assoc|].
    split; intros (layer & Hc & _)%list_elem_of_bind;
      by destruct (layerDirectives_kinds _ _ Hc).
  - simpl. by rewrite <- app_assoc.
Qed.

Lemma updateTiles_keep ctl s :
  m_disabled (updateTilesGBA ctl s) = m_disabled s /\
  m_active (updateTilesGBA ctl s) = m_active s /\
  m_glowFrame (updateTilesGBA ctl s) = m_glowFrame s /\
  m_disabled (updateTilesGB ctl s) = m_disabled s /\
  m_active (updateTilesGB ctl s) = m_active s /\
  m_glowFrame (updateTilesGB ctl s) = m_glowFrame s.
Proof.
  unfold updateTilesGBA, updateTilesGB.
  destruct (ui_freeze s) eqn:Hf; [done|].
  repeat match goal with
  | |- context [invalidateQueue ?c ?d ?t] =>
      let F := fresh in
      pose proof (invalidateQueue_frame c d t) as F; cbv zeta in F;
      destruct F as (_ & -> & -> & -> & _)
  end.
  unfold updateRendered. simpl. by rewrite Hf.
Qed.

(** X11.  The disabled set outlives the queue.  A rebuild by either
    [updateTiles], GBA or Game Boy, changes neither the disabled set nor
    the active layer; and after a row was unchecked, every layer of that
    identity in a queue rebuilt by [updateTilesGBA] comes back switched
    off, all others as the disabled set has them. *)
Theorem unchecked_layer_stays_off (ctl ctl' : CoreController)
    (s : FrameView) (row : Z) (layer : Layer) :
  layerAt (m_queue s) row = Some layer ->
  ui_freeze s = false ->
  let s1 := itemChanged ctl row false s in
  let s2 := updateTilesGBA ctl' s1 in
  m_disabled s2 = {[ id layer ]} ∪ m_disabled s /\
  m_active s2 = m_active s /\
  m_disabled (updateTilesGB ctl' s1) = m_disabled s2 /\
  m_active (updateTilesGB ctl' s1) = m_active s /\
  (forall l, l ∈ m_queue s2 -> id l = id layer -> enabled l = false) /\
  (forall l, l ∈ m_queue s2 ->
     enabled l = negb (bool_decide (id l ∈ m_disabled s2))).
Proof.
  intros Hl Hf s1 s2.
  destruct (invalidateQueue_frame ctl noSize (toggleLayer row false s))
    as (_ & Hd1 & Ha1 & _ & Hf1 & _).
  fold (itemChanged ctl row false s) in Hd1, Ha1, Hf1. fold s1 in Hd1, Ha1, Hf1.
  rewrite (toggleLayer_spec row false s layer Hl) in Hd1, Ha1, Hf1.
  cbn [with_disabled with_queue m_disabled m_active ui_freeze] in Hd1, Ha1, Hf1.
  destruct (updateTiles_keep ctl' s1) as (Hd2 & Ha2 & _ & Hd2' & Ha2' & _).
  fold s2 in Hd2, Ha2.
  assert (Hall : forall l, l ∈ m_queue s2 ->
            enabled l = negb (bool_decide (id l ∈ m_disabled s2))).
  { intros l Hin. rewrite Hd2.
    assert (Hf1' : ui_freeze s1 = false) by by rewrite Hf1.
    by apply (proj1 (Forall_forall _ _) (updateTilesGBA_enabled ctl' s1 Hf1')). }
  split; [by rewrite Hd2, Hd1|]. split; [by rewrite Ha2, Ha1|].
  split; [by rewrite Hd2', Hd2|]. split; [by rewrite Ha2', Ha1|].
  split; [|done].
  intros l Hin Hid. rewrite (Hall l Hin), Hd2, Hd1, Hid.
  apply negb_false_iff, bool_decide_eq_true. set_solver.
Qed.

End RerenderOnce.

(** ** Mouse events *)

Lemma lookupLayer_same_pixel queue disabled c c' :
  clickPoint c = clickPoint c' ->
  lookupLayer queue disabled c = lookupLayer queue disabled c'.
Proof.
  intros Hc. unfold lookupLayer. generalize 0%nat as i.
  induction queue as [|layer rest IH]; intros i; simpl; [done|].
  assert (Hh : hits disabled c layer = hits disabled c' layer).
  { unfold hits. fold (clickPoint c) (clickPoint c'). by rewrite Hc. }
  rewrite Hh. by destruct (hits disabled c' layer).
Qed.

Lemma toInt_div_inject a k :
  0 <= a -> 0 < k -> toInt (inject_Z a / inject_Z k) = a / k.
Proof.
  intros Ha Hk. destruct k as [|p|p]; try lia.
  unfold toInt, Qdiv, Qmult, Qinv, inject_Z. simpl.
  rewrite Z.mul_1_r. apply Z.quot_div_nonneg; lia.
Qed.

(** X12.  A mouse press at a non-negative whole position [(a, b)] of a
    view magnified [k] times, [k] at least 1, acts as [selectLayer] at
    the native pixel [(a / k, b / k)], a double click as [disableLayer]
    there, and both report the event handled; so every screen pixel of
    the [k] by [k] block of one native pixel does the same.  Any other
    event leaves the view alone and is reported unhandled. *)
Theorem eventFilter_native_pixel (s : FrameView) (a b : Z) :
  1 <= ui_magnification s -> 0 <= a -> 0 <= b ->
  let k := ui_magnification s in
  eventFilter MouseButtonPress (QPointF.ofInts a b) s =
    (selectLayer (QPointF.ofInts (a / k) (b / k)) s, true) /\
  eventFilter MouseButtonDblClick (QPointF.ofInts a b) s =
    (disableLayer (QPointF.ofInts (a / k) (b / k)) s, true) /\
  forall pos, eventFilter OtherEvent pos s = (s, false).
Proof.
  intros Hk Ha Hb k.
  assert (Hpix : clickPoint (dividedBy (QPointF.ofInts a b) k) =
                 clickPoint (QPointF.ofInts (a / k) (b / k))).
  { unfold clickPoint, dividedBy; simpl.
    rewrite !toInt_inject.
    by rewrite !toInt_div_inject by (subst k; lia). }
  pose proof (lookupLayer_same_pixel (m_queue s) (m_disabled s) _ _ Hpix)
    as Hlook.
  split; [|split; [|done]].
  - unfold eventFilter, selectLayer. fold k. by rewrite Hlook.
  - unfold eventFilter, disableLayer. fold k. by rewrite Hlook.
Qed.

(** ** From a click or a row to the replay core *)

Section ToTheCore.
Context `{Collaborators}.

Lemma invalidateQueue_core ctl s vl :
  m_vl s = Some vl ->
  m_vl (invalidateQueue ctl noSize s) =
  Some (runFrame (inject (platform ctl) s (reset vl))).
Proof.
  intros Hvl.
  unfold invalidateQueue, composite, syncList, rerun, updateRendered.
  simpl. rewrite Hvl. simpl.
  destruct (m_framebuffer s); simpl; [done|].
  by destruct (ui_freeze s).
Qed.

Lemma calls_since_reset p s vl :
  sinceReset (calls (runFrame (inject p s (reset vl)))) =
  passCalls p s ++ [RunFrame].
Proof.
  unfold runFrame, call at 1. cbn [calls].
  rewrite inject_calls. unfold reset, call. cbn [calls].
  rewrite <- !app_assoc. cbn [app].
  apply sinceReset_after_reset.
  intros [Hin | Hin%list_elem_of_singleton]%elem_of_app; [|done].
  by apply (passCalls_no_reset p s).
Qed.

(** X13.  A double click that finds a layer reaches the replay core with
    the next timer tick: among the calls of that re-render, after its
    reset, is the write of 0x200 at the sprite's attribute word when the
    layer is a sprite, and the call switching the video layer off when
    it is a background.  The tick advances the glow counter by one. *)
Theorem double_click_reaches_core (ctl : CoreController) (s : FrameView)
    (coord : QPointF.t) (i : nat) (vl : mCore) :
  lookupLayer (m_queue s) (m_disabled s) coord = Some i ->
  m_vl s = Some vl ->
  platform ctl = PLATFORM_GBA ->
  let s' := glowTimeout ctl (disableLayer coord s) in
  exists layer vl',
    m_queue s !! i = Some layer /\ enabled layer = true /\
    m_vl s' = Some vl' /\
    (LayerId.type (id layer) = LayerId.SPRITE ->
     InjectOAM (toU32 (Z.shiftl (LayerId.index (id layer)) 2)) 0x200
       ∈ sinceReset (calls vl')) /\
    (LayerId.type (id layer) = LayerId.BACKGROUND ->
     EnableVideoLayer (LayerId.index (id layer)) false
       ∈ sinceReset (calls vl')) /\
    m_glowFrame s' = m_glowFrame s + 1.
Proof.
  intros Hlook Hvl Hp s'.
  destruct (lookupLayer_Some _ _ _ _ Hlook) as (layer & Hl & Hh).
  apply hits_matches in Hh as (Hen & _ & _).
  set (t := with_glowFrame (m_glowFrame s + 1)
              (with_disabled ({[ id layer ]} ∪ m_disabled s)
                 (with_queue (<[i := set_enabled false layer]> (m_queue s)) s))).
  assert (Hs' : s' = invalidateQueue ctl noSize t).
  { subst s' t. unfold glowTimeout, disableLayer. by rewrite Hlook, Hl. }
  assert (Hin : set_enabled false layer ∈ m_queue t).
  { subst t. cbn [with_glowFrame with_disabled with_queue m_queue].
    eapply list_elem_of_lookup_2.
    apply list_lookup_insert_eq. by eapply lookup_lt_Some. }
  exists layer, (runFrame (inject (platform ctl) t (reset vl))).
  split; [done|]. split; [done|].
  split; [rewrite Hs'; by apply invalidateQueue_core|].
  rewrite calls_since_reset, Hp. cbn [passCalls].
  assert (Hdir : forall c, c ∈ layerDirectives (set_enabled false layer) ->
            c ∈ (InjectionPoint LOGGER_INJECTION_FIRST_SCANLINE
                 :: (m_queue t ≫= layerDirectives) ++
                    [IgnoreAfterInjection
                       (if ui_disableScanline t
                        then Z.lor (Z.lor (Z.shiftl 1 DIRTY_PALETTE)
                                          (Z.shiftl 1 DIRTY_OAM))
                                   (Z.shiftl 1 DIRTY_REGISTER)
                        else 0)]) ++ [RunFrame]).
  { intros c Hc. apply elem_of_app. left. apply elem_of_cons. right.
    apply elem_of_app. left. apply list_elem_of_bind.
    by exists (set_enabled false layer). }
  split; [|split].
  - intros Hty. apply Hdir. unfold layerDirectives.
    cbn [set_enabled id enabled]. rewrite Hty. by left.
  - intros Hty. apply Hdir. unfold layerDirectives.
    cbn [set_enabled id enabled]. rewrite Hty. by left.
  - rewrite Hs'.
    by destruct (invalidateQueue_frame ctl noSize t) as (_ & _ & _ & -> & _).
Qed.

(** X14.  Choosing a row of the list makes its layer the active one, and
    the re-render that follows sets that layer's highlight flag in the
    renderer; with no row chosen the active layer is none and the
    re-render leaves every flag clear.  (GBA platform, a core with its
    flag arrays, an index in range.) *)
Theorem currentItemChanged_highlights (ctl : CoreController)
    (s : FrameView) (vl : mCore) :
  m_vl s = Some vl -> Renderer.wf (renderer vl) ->
  platform ctl = PLATFORM_GBA ->
  (forall row layer,
     layerAt (m_queue s) row = Some layer -> indexInRange (id layer) ->
     let s' := currentItemChanged ctl (Some row) s in
     m_active s' = id layer /\
     exists vl', m_vl s' = Some vl' /\
       (LayerId.type (id layer) = LayerId.BACKGROUND ->
        Renderer.highlightBG (renderer vl')
          !! Z.to_nat (LayerId.index (id layer)) = Some true) /\
       (LayerId.type (id layer) = LayerId.SPRITE ->
        Renderer.highlightOBJ (renderer vl')
          !! Z.to_nat (LayerId.index (id layer)) = Some true)) /\
  (let s' := currentItemChanged ctl None s in
   m_active s' = LayerId.none /\
   exists vl', m_vl s' = Some vl' /\
     Renderer.highlightBG (renderer vl') = replicate 4 false /\
     Renderer.highlightOBJ (renderer vl') = replicate 128 false).
Proof.
  intros Hvl Hwf Hp.
  assert (Hwf' : Renderer.wf (renderer (reset vl))) by done.
  split.
  - intros row layer Hl Hrange s'.
    assert (Hs' : s' = invalidateQueue ctl noSize (with_active (id layer) s)).
    { subst s'. unfold currentItemChanged. by rewrite Hl. }
    rewrite Hs'.
    destruct (invalidateQueue_frame ctl noSize (with_active (id layer) s))
      as (_ & _ & -> & _).
    split; [done|].
    eexists. split; [by apply invalidateQueue_core|].
    rewrite Hp. cbn [runFrame call renderer inject]. rewrite injectGB_id.
    rewrite (injectGBA_renderer _ _ Hwf'). cbv zeta.
    cbn [with_active m_active m_queue m_glowFrame].
    assert (Hin : id layer ∈ id <$> m_queue s).
    { apply list_elem_of_fmap. exists layer. split; [done|].
      apply layerAt_Some in Hl as [_ Hl]. by eapply list_elem_of_lookup_2. }
    rewrite bool_decide_eq_true_2 by done.
    unfold indexInRange in Hrange.
    split; intros Hty; rewrite Hty in *;
      cbn [setHighlightBG setHighlightOBJ Renderer.highlightBG
           Renderer.highlightOBJ];
      apply lookup_store_replicate_true; lia.
  - intros s'.
    assert (Hs' : s' = invalidateQueue ctl noSize (with_active LayerId.none s))
      by done.
    rewrite Hs'.
    destruct (invalidateQueue_frame ctl noSize (with_active LayerId.none s))
      as (_ & _ & -> & _).
    split; [done|].
    eexists. split; [by apply invalidateQueue_core|].
    rewrite Hp. cbn [runFrame call renderer inject]. rewrite injectGB_id.
    rewrite (injectGBA_renderer _ _ Hwf'). cbv zeta.
    cbn [with_active m_active LayerId.none LayerId.type].
    by case_bool_decide.
Qed.

(** X15.  Two clicks on the same spot, with nothing in between: when the
    layer under it was the active one it is active again, otherwise no
    layer is active; the glow counter is zero, and neither the queue nor
    the disabled set has changed. *)
Theorem selectLayer_twice (s : FrameView) (coord : QPointF.t) (i : nat) :
  lookupLayer (m_queue s) (m_disabled s) coord = Some i ->
  exists L, m_queue s !! i = Some L /\
    let s2 := selectLayer coord (selectLayer coord s) in
    m_active s2 =
      (if bool_decide (id L = m_active s) then id L else LayerId.none) /\
    m_glowFrame s2 = 0 /\
    m_queue s2 = m_queue s /\ m_disabled s2 = m_disabled s.
Proof.
  intros Hlook.
  destruct (lookupLayer_Some _ _ _ _ Hlook) as (L & HL & _).
  exists L. split; [done|]. intros s2.
  assert (Hs1 : selectLayer coord s = with_glowFrame 0
            (if bool_decide (id L = m_active s)
             then with_active LayerId.none s else with_active (id L) s)).
  { unfold selectLayer. by rewrite Hlook, HL. }
  subst s2. rewrite Hs1. clear Hs1.
  assert (Hsel : forall t, m_queue t = m_queue s -> m_disabled t = m_disabled s ->
            selectLayer coord t = with_glowFrame 0
              (if bool_decide (id L = m_active t)
               then with_active LayerId.none t else with_active (id L) t)).
  { intros t Hq Hd. unfold selectLayer. by rewrite Hq, Hd, Hlook, HL. }
  rewrite Hsel by (by case_bool_decide).
  destruct (decide (id L = m_active s)) as [Heq|Hne].
  - rewrite !(bool_decide_eq_true_2 (id L = m_active s)) by done.
    cbn [with_glowFrame with_active m_active].
    destruct (decide (id L = LayerId.none)) as [Hn|Hn].
    + rewrite (bool_decide_eq_true_2 _ Hn). simpl. by rewrite Hn.
    + by rewrite (bool_decide_eq_false_2 _ Hn).
  - rewrite !(bool_decide_eq_false_2 (id L = m_active s)) by done.
    cbn [with_glowFrame with_active m_active].
    by rewrite bool_decide_eq_true_2 by done.
Qed.

End ToTheCore.

(** ** Magnification *)

Section Magnification.
Context `{Collaborators}.

(** X16.  Changing the magnification of a view whose core is loaded
    re-runs the replay: the core receives one more reset, the calls of
    one injection pass over the same queue and one more [runFrame], on
    the same video log.  That run draws the frame it drew before: the
    frame buffer is as it was, the composite is that frame scaled to the
    native size times the new factor, the rendered view is the rendered
    image scaled to its height times the new factor, and queue, disabled
    set and active layer are untouched. *)
Theorem magnificationChanged_rescales (ctl0 ctl : CoreController)
    (s : FrameView) (vl : mCore) (fb : QPixmap.t) (k : Z) :
  m_vl s = Some vl -> m_framebuffer s = Some fb ->
  Renderer.wf (renderer vl) ->
  platform ctl = platform ctl0 ->
  let before := invalidateQueue ctl0 noSize s in
  let after := magnificationChanged ctl k before in
  ui_magnification after = k /\
  (exists core core', m_vl before = Some core /\ m_vl after = Some core' /\
     videoLog core' = videoLog core /\
     calls core' =
       calls core ++ [Reset] ++ passCalls (platform ctl) s ++ [RunFrame]) /\
  m_framebuffer after = m_framebuffer before /\
  (exists frame, m_framebuffer before = Some frame /\
     m_composited after = scaled (QSize.times (m_dims s) k) frame) /\
  ui_renderedView after =
    scaledToHeight (QPixmap.height (m_rendered before) * k)
                   (m_rendered before) /\
  m_rendered after = m_rendered before /\
  m_queue after = m_queue s /\ m_disabled after = m_disabled s /\
  m_active after = m_active s.
Proof.
  intros Hvl Hfb Hwf Hp before after.
  assert (Hbefore : before = invalidateQueue ctl0 noSize s) by reflexivity.
  clearbody before.
  pose proof (invalidateQueue_frame ctl0 noSize s) as F0.
  pose proof (invalidateQueue_loaded ctl0 s vl fb Hvl Hfb) as L0.
  cbv zeta in F0, L0. rewrite <- Hbefore in F0, L0.
  destruct F0 as (Hq0 & Hd0 & Ha0 & Hg0 & _ & Hs0 & Hm0 & Hdim0).
  destruct L0 as (Hvl0 & Hfb0 & _ & _). simpl in Hdim0.
  remember (inject (platform ctl0) s (reset vl)) as vl0 eqn:Evl0.
  set (t := with_magnification k before).
  assert (Hvt : m_vl t = Some (runFrame vl0)) by done.
  assert (Hft : m_framebuffer t = Some (frameOf vl0)) by done.
  pose proof (invalidateQueue_frame ctl noSize t) as F1.
  pose proof (invalidateQueue_loaded ctl t _ _ Hvt Hft) as L1.
  cbv zeta in F1, L1.
  destruct F1 as (Hq1 & Hd1 & Ha1 & Hg1 & _ & Hs1 & Hm1 & Hdim1).
  destruct L1 as (Hvl1 & Hfb1 & Hc1 & _). simpl in Hdim1.
  assert (Hr1 : m_rendered (invalidateQueue ctl noSize t) = m_rendered before).
  { unfold invalidateQueue, composite, syncList, rerun. simpl.
    rewrite Hvl0. simpl. by rewrite Hfb0. }
  assert (Hframe : frameOf (inject (platform ctl) t (reset (runFrame vl0)))
                   = frameOf vl0).
  { rewrite Evl0, !frameOf_inject_reset, Hp.
    assert (Hcalls : passCalls (platform ctl0) t = passCalls (platform ctl0) s).
    { destruct (platform ctl0); simpl; [|done]. by rewrite Hq0, Hs0. }
    rewrite Hcalls.
    assert (Hlog : videoLog (runFrame (inject (platform ctl0) s (reset vl)))
                   = videoLog vl) by (simpl; by rewrite inject_videoLog).
    rewrite Hlog. f_equal.
    apply inject_renderer_stable; try done.
    - simpl. by apply inject_wf.
    - simpl. by rewrite Hq0.
    - intros Hgb. simpl. rewrite Hgb. simpl. by rewrite !injectGB_id. }
  assert (Hpass : passCalls (platform ctl) t = passCalls (platform ctl) s).
  { destruct (platform ctl); simpl; [|done]. by rewrite Hq0, Hs0. }
  assert (Hcore : exists core core',
            m_vl before = Some core /\
            m_vl (invalidateQueue ctl noSize t) = Some core' /\
            videoLog core' = videoLog core /\
            calls core' =
              calls core ++ [Reset] ++ passCalls (platform ctl) s
                         ++ [RunFrame]).
  { exists (runFrame vl0),
           (runFrame (inject (platform ctl) t (reset (runFrame vl0)))).
    split; [done|]. split; [done|]. split.
    - unfold runFrame, call. cbn [videoLog]. by rewrite inject_videoLog.
    - unfold runFrame at 1, call at 1. cbn [calls].
      rewrite inject_calls, Hpass. unfold reset, call at 1. cbn [calls].
      by rewrite <- !app_assoc. }
  subst after. unfold magnificationChanged. fold t.
  cbn [with_rendered ui_magnification m_framebuffer m_composited m_vl
       ui_renderedView m_rendered m_queue m_disabled m_active].
  split; [by rewrite Hm1|]. split; [exact Hcore|]. clear Hcore.
  rewrite Hfb1, Hc1, Hr1, Hq1, Hd1, Ha1, Hframe, Hm1.
  subst t. cbn [with_magnification ui_magnification m_dims m_queue m_disabled
                m_active].
  rewrite Hdim0, Hq0, Hd0, Ha0, Hfb0.
  repeat split; try done. by exists (frameOf vl0).
Qed.

End Magnification.

(** * The properties on the sample view *)

#[local] Existing Instance gba.

Lemma sampleCore_wf : Renderer.wf (renderer sampleCore).
Proof. split; reflexivity. Defined.

Lemma sampleQueue_in_range :
  Forall (fun layer => indexInRange (id layer)) (m_queue sampleView).
Proof.
  repeat apply Forall_cons_2; try apply Forall_nil_2;
    unfold indexInRange; simpl; try exact I; lia.
Defined.

Lemma sampleBackground_enabled_not_disabled :
  id sampleBackground ∉ m_disabled sampleView.
Proof.
  unfold sampleView. cbn [m_disabled].
  intros Hin%elem_of_singleton. discriminate Hin.
Defined.

(** The sample queue is what [updateTilesGBA] builds from the sample
    core: identity, enabled flag, placement and repeats flag of each
    layer. *)
Example updateTilesGBA_sample :
  (fun l => (id l, enabled l, location l, repeats l))
    <$> m_queue (updateTilesGBA sampleController sampleView) =
  (fun l => (id l, enabled l, location l, repeats l)) <$> sampleQueue.
Proof. vm_compute. reflexivity. Qed.

Example readable_sample :
  LayerId.readable <$> (id <$> sampleQueue)
  = ["Sprite 5"; "Background 1"; "Backdrop"].
Proof. vm_compute. reflexivity. Qed.

(** The rows of the list after a re-render: one per layer, checked when
    the layer is on, selected when it is the active one. *)
Example invalidateQueue_rows :
  (fun item => (text item, checkState item, data item, selected item))
    <$> ui_queue (invalidateQueue sampleController noSize sampleView) =
  [("Sprite 5", false, 0, false); ("Background 1", true, 1, true);
   ("Backdrop", true, 2, false)].
Proof. vm_compute. reflexivity. Qed.

(** The calls of one re-render on the sample core. *)
Example invalidateQueue_calls :
  calls <$> m_vl (invalidateQueue sampleController noSize sampleView) =
  Some [Reset; InjectionPoint 1; InjectOAM 20 0x200; EnableVideoLayer 1 true;
        IgnoreAfterInjection 0; RunFrame].
Proof. vm_compute. reflexivity. Qed.

(** A click at (3, 3) lands in the wrap copy of background 1. *)
Lemma sample_lookup :
  lookupLayer (m_queue sampleView) (m_disabled sampleView)
              (QPointF.ofInts 3 3) = Some 1%nat.
Proof. vm_compute. reflexivity. Defined.

Lemma injectGBA_directives_witness :
  InjectOAM 20 0x200 ∈ calls (injectGBA sampleView sampleCore) /\
  EnableVideoLayer 1 true ∈ calls (injectGBA sampleView sampleCore).
Proof.
  destruct (injectGBA_directives sampleView sampleCore)
    as (body & ignore & Heq & Hsprite & Hbg & _).
  rewrite Heq. split.
  - apply elem_of_app. right. apply elem_of_cons. right.
    apply elem_of_app. left.
    apply (Hsprite sampleSprite); [by left | reflexivity | reflexivity |].
    simpl. lia.
  - apply elem_of_app. right. apply elem_of_cons. right.
    apply elem_of_app. left.
    apply (Hbg sampleBackground); [by right; left | reflexivity].
Defined.

Lemma lookupLayer_first_match_witness :
  exists layer, m_queue sampleView !! 1%nat = Some layer /\
    eligible (m_disabled sampleView) (QPointF.ofInts 3 3) layer /\
    forall j earlier, (j < 1)%nat -> m_queue sampleView !! j = Some earlier ->
                      ~ eligible (m_disabled sampleView) (QPointF.ofInts 3 3)
                                 earlier.
Proof.
  pose proof (lookupLayer_first_match (m_queue sampleView)
                (m_disabled sampleView) (QPointF.ofInts 3 3)) as Hw.
  rewrite sample_lookup in Hw. exact Hw.
Defined.

Lemma repeating_layer_wraps_witness :
  hits (m_disabled sampleView) (QPointF.ofInts (8 - 3) 3) sampleBackground
    = true /\
  hits (m_disabled sampleView) (QPointF.ofInts (8 - 3) 3) sampleBackground
    = hits (m_disabled sampleView) (QPointF.ofInts (-3) 3)
           (primaryPlacement sampleBackground).
Proof.
  pose proof (repeating_layer_wraps sampleBackground eq_refl) as Hw.
  cbv zeta in Hw. destruct Hw as [_ Hw].
  assert (H3 : 3 <= QPixmap.width (image sampleBackground))
    by (simpl; lia).
  destruct (Hw eq_refl H3 (m_disabled sampleView) 3) as [Hfwd Hboth].
  split.
  - apply Hfwd. vm_compute. reflexivity.
  - apply Hboth.
    + intros p Hp. unfold sampleBackground, mask, QRegion.contains,
        QRegion.ofRect, existsb, QRect.contains in Hp. simpl in Hp.
      rewrite orb_false_r in Hp.
      apply andb_prop in Hp as [Hp Hp4]. apply andb_prop in Hp as [Hp Hp3].
      apply andb_prop in Hp as [Hp1 Hp2].
      apply Z.leb_le in Hp1, Hp3. apply Z.ltb_lt in Hp2, Hp4.
      simpl. split; split; assumption.
    + simpl. lia.
Defined.

Lemma toggle_keeps_enabled_in_step_witness :
  (exists layer',
     layerAt (m_queue (itemChanged sampleController 1 false sampleView)) 1
       = Some layer' /\
     id layer' = id sampleBackground /\ enabled layer' = false /\
     m_disabled (itemChanged sampleController 1 false sampleView) =
       {[ id sampleBackground ]} ∪ m_disabled sampleView /\
     enabled layer' =
       negb (bool_decide
               (id layer' ∈
                m_disabled (itemChanged sampleController 1 false sampleView))))
  /\
  (exists layer layer',
     m_queue sampleView !! 1%nat = Some layer /\
     m_queue (disableLayer (QPointF.ofInts 3 3) sampleView) !! 1%nat
       = Some layer' /\
     id layer' = id layer /\ enabled layer' = false /\
     m_disabled (disableLayer (QPointF.ofInts 3 3) sampleView) =
       {[ id layer ]} ∪ m_disabled sampleView /\
     enabled layer' =
       negb (bool_decide
               (id layer' ∈
                m_disabled (disableLayer (QPointF.ofInts 3 3) sampleView)))).
Proof.
  destruct (toggle_keeps_enabled_in_step sampleController sampleView)
    as [Hitem Hpoint].
  split.
  - exact (Hitem 1 false sampleBackground eq_refl).
  - exact (Hpoint (QPointF.ofInts 3 3) 1%nat sample_lookup).
Defined.

Lemma updateTiles_backdrop_last_witness :
  (exists queue backdrop,
     m_queue (updateTilesGBA sampleController sampleView)
       = queue ++ [backdrop] /\
     id backdrop = LayerId.backdrop /\ repeats backdrop = false /\
     Forall (fun l => LayerId.type (id l) <> LayerId.BACKDROP) queue /\
     length (filter (fun l => isBackdrop l = true)
                    (m_queue (updateTilesGBA sampleController sampleView)))
       = 1%nat) /\
  m_queue (updateTilesGB sampleController sampleView) = [].
Proof. exact (updateTiles_backdrop_last sampleController sampleView eq_refl). Defined.

(** C5 does not hold on the Game Boy path: a pass of [updateTilesGB]
    that is not frozen ends with a queue that holds no backdrop and has
    no last element. *)
Lemma updateTilesGB_no_backdrop :
  ui_freeze sampleView = false /\
  length (filter (fun l => isBackdrop l = true)
                 (m_queue (updateTilesGB sampleController sampleView)))
    = 0%nat /\
  last (m_queue (updateTilesGB sampleController sampleView)) = None.
Proof. vm_compute. repeat split. Qed.

Lemma toggle_round_trip_witness :
  let before := invalidateQueue sampleController noSize sampleView in
  let off := itemChanged sampleController 1 false before in
  let after := itemChanged sampleController 1 true off in
  layerAt (m_queue off) 1 = Some (set_enabled false sampleBackground) /\
  id sampleBackground ∈ m_disabled off /\
  m_queue after = m_queue before /\
  m_disabled after = m_disabled before /\
  m_framebuffer after = m_framebuffer before /\
  m_composited after = m_composited before /\
  ui_compositedView after = ui_compositedView before.
Proof.
  exact (toggle_round_trip sampleController sampleController sampleController
           sampleView sampleCore (sampleImage 240 160) 1 sampleBackground
           eq_refl eq_refl sampleCore_wf eq_refl eq_refl eq_refl eq_refl
           sampleBackground_enabled_not_disabled).
Defined.

Lemma selectLayer_toggles_witness :
  exists L, m_queue sampleView !! 1%nat = Some L /\
    m_active (selectLayer (QPointF.ofInts 3 3) sampleView) = LayerId.none /\
    m_glowFrame (selectLayer (QPointF.ofInts 3 3) sampleView) = 0 /\
    Renderer.highlightBG
      (renderer (injectGBA (selectLayer (QPointF.ofInts 3 3) sampleView)
                           sampleCore)) = replicate 4 false.
Proof.
  destruct (selectLayer_toggles sampleView (QPointF.ofInts 3 3) 1%nat
              sample_lookup) as (L & HL & Hw).
  cbv zeta in Hw. destruct Hw as (_ & Hoff & Hglow & _ & _ & Hnone).
  assert (Hact : id L = m_active sampleView).
  { change (m_queue sampleView !! 1%nat) with (Some sampleBackground) in HL.
    injection HL as <-. reflexivity. }
  exists L. split; [exact HL|]. split; [exact (Hoff Hact)|].
  split; [exact Hglow|].
  exact (proj1 (Hnone Hact sampleCore sampleCore_wf)).
Defined.

Lemma updateTiles_frozen_witness :
  updateTilesGBA sampleController sampleFrozenView = sampleFrozenView /\
  updateTilesGB sampleController sampleFrozenView = sampleFrozenView /\
  m_queue (updateTilesGBA sampleController sampleFrozenView)
    = m_queue sampleFrozenView /\
  m_queue (updateTilesGB sampleController sampleFrozenView)
    = m_queue sampleFrozenView.
Proof. exact (updateTiles_frozen sampleController sampleFrozenView eq_refl). Defined.

Lemma invalidateQueue_without_core_witness :
  m_vl (invalidateQueue sampleController noSize sampleEmptyView) = None /\
  m_composited (invalidateQueue sampleController noSize sampleEmptyView) =
    scaled (QSize.times
              (m_dims (invalidateQueue sampleController noSize sampleEmptyView))
              (ui_magnification
                 (invalidateQueue sampleController noSize sampleEmptyView)))
           (m_rendered (invalidateQueue sampleController noSize
                          sampleEmptyView)).
Proof.
  destruct (invalidateQueue_without_core sampleController noSize
              sampleEmptyView) as [Hcore Hnull].
  split.
  - exact (proj1 (Hcore eq_refl)).
  - exact (proj1 (proj2 (proj2 (Hnull eq_refl)))).
Defined.

Lemma injectGBA_highlights_witness :
  Renderer.highlightBG (renderer (injectGBA sampleView sampleCore)) !! 1%nat
    = Some true /\
  (countSet (Renderer.highlightBG (renderer (injectGBA sampleView sampleCore)))
   + countSet
       (Renderer.highlightOBJ (renderer (injectGBA sampleView sampleCore)))
   <= 1)%nat.
Proof.
  destruct (injectGBA_highlights sampleView sampleCore sampleCore_wf
              sampleQueue_in_range) as (Hbg & _ & _ & _ & Hcount).
  split; [|exact Hcount].
  apply (Hbg 1%nat). split; [reflexivity|].
  unfold sampleView, sampleQueue. cbn [m_active m_queue fmap list_fmap].
  right. left.
Defined.

(** ** The further properties on the sample views *)

Lemma itemChanged_updates_its_row_witness :
  ui_queue (itemChanged sampleController 1 false
              (invalidateQueue sampleController noSize sampleView)) =
  <[1%nat := mkItem "Background 1" (Z.lor (Z.lor 1 16) 32) false 1 true]>
    (ui_queue (invalidateQueue sampleController noSize sampleView)).
Proof.
  assert (Hrow : ui_queue (invalidateQueue sampleController noSize sampleView)
                   !! 1%nat
                 = Some (rowOf (m_active sampleView) 1 sampleBackground))
    by (vm_compute; reflexivity).
  exact (proj1 (itemChanged_updates_its_row sampleController sampleController
                  noSize sampleView 1%nat _ false Hrow)).
Defined.

Lemma readable_inj_witness :
  LayerId.type (LayerId.mk LayerId.BACKDROP (-1)) =
  LayerId.type (LayerId.mk LayerId.BACKDROP (-7)) /\
  (LayerId.type (LayerId.mk LayerId.BACKDROP (-1)) = LayerId.NONE \/
   (LayerId.index (LayerId.mk LayerId.BACKDROP (-1)) < 0 /\
    LayerId.index (LayerId.mk LayerId.BACKDROP (-7)) < 0) \/
   LayerId.index (LayerId.mk LayerId.BACKDROP (-1)) =
   LayerId.index (LayerId.mk LayerId.BACKDROP (-7))).
Proof.
  apply (readable_inj (LayerId.mk LayerId.BACKDROP (-1))
                      (LayerId.mk LayerId.BACKDROP (-7))).
  reflexivity.
Defined.

Lemma updateTilesGBA_order_witness :
  NoDup (id <$> m_queue (updateTilesGBA sampleController sampleView)).
Proof. exact (proj2 (updateTilesGBA_order sampleController sampleView eq_refl)). Defined.


Lemma sample_lookup_rebuilt :
  lookupLayer (m_queue (updateTilesGBA sampleController sampleView))
              (m_disabled (updateTilesGBA sampleController sampleView))
              (QPointF.ofInts 3 3) = Some 1%nat.
Proof. vm_compute. reflexivity. Defined.

Lemma backdrop_is_never_hit_witness :
  exists layer,
    m_queue (updateTilesGBA sampleController sampleView) !! 1%nat
      = Some layer /\
    (LayerId.type (id layer) = LayerId.SPRITE \/
     LayerId.type (id layer) = LayerId.BACKGROUND).
Proof.
  exact (proj1 (backdrop_is_never_hit sampleController sampleView
                  (QPointF.ofInts 3 3) eq_refl) 1%nat sample_lookup_rebuilt).
Defined.

Lemma sampleStack_lookup :
  lookupLayer (m_queue sampleStackView) (m_disabled sampleStackView)
              (QPointF.ofInts 3 3) = Some 0%nat.
Proof. vm_compute. reflexivity. Defined.

Lemma sampleStack_lookup_after :
  lookupLayer
    (m_queue (disableLayer (QPointF.ofInts 3 3) sampleStackView))
    (m_disabled (disableLayer (QPointF.ofInts 3 3) sampleStackView))
    (QPointF.ofInts 3 3) = Some 1%nat.
Proof. vm_compute. reflexivity. Defined.

Lemma disableLayer_uncovers_witness :
  (0 < 1)%nat /\
  exists layer below,
    m_queue sampleStackView !! 0%nat = Some layer /\
    m_queue sampleStackView !! 1%nat = Some below /\
    m_queue (disableLayer (QPointF.ofInts 3 3) sampleStackView) !! 1%nat
      = Some below /\
    id below <> id layer.
Proof.
  exact (disableLayer_uncovers sampleStackView (QPointF.ofInts 3 3) 0%nat
           sampleStack_lookup 1%nat sampleStack_lookup_after).
Defined.

Lemma opaque_layer_hit_box_witness :
  hits ∅ (QPointF.ofInts 12 17) (withMask sampleUpperSprite) = false /\
  hits ∅ (QPointF.ofInts 3 7) (withMask sampleUpperSprite) = true.
Proof.
  destruct (opaque_layer_hit_box sampleUpperSprite 0 0 ∅ (QPointF.ofInts 3 7)
              eq_refl eq_refl eq_refl) as [Hin _].
  destruct (opaque_layer_hit_box sampleUpperSprite 0 0 ∅ (QPointF.ofInts 12 17)
              eq_refl eq_refl eq_refl) as [Hout _].
  split.
  - destruct (hits ∅ (QPointF.ofInts 12 17) (withMask sampleUpperSprite));
      [|reflexivity].
    destruct (proj1 Hout eq_refl) as (_ & _ & Hx & _).
    vm_compute in Hx. destruct Hx as [_ Hx]. discriminate Hx.
  - apply Hin. split; [reflexivity|]. split; [apply not_elem_of_empty|].
    vm_compute. repeat split; congruence.
Defined.

Lemma sampleBuiltBackground_in :
  sampleBuiltBackground ∈ m_queue (updateTilesGBA sampleController sampleView).
Proof.
  apply (list_elem_of_lookup_2 _ 1%nat). vm_compute. reflexivity.
Defined.

Lemma updateTilesGBA_placement_witness :
  repeats sampleBuiltBackground = true /\
  exists ox oy, location sampleBuiltBackground = QPointF.ofInts ox oy /\
    -511 <= ox <= 0 /\ -511 <= oy <= 0.
Proof.
  destruct (updateTilesGBA_placement sampleController sampleView
              sampleBuiltBackground eq_refl sampleBuiltBackground_in)
    as (_ & Hbg & _).
  destruct (Hbg 1 eq_refl) as (Hrep & ox & oy & Hloc & Hx & Hy & _).
  split; [exact Hrep|]. exists ox, oy. repeat split; tauto.
Defined.

Lemma invalidateQueue_runs_one_frame_witness :
  exists vl',
    m_vl (invalidateQueue sampleController noSize sampleView) = Some vl' /\
    videoLog vl' = videoLog sampleCore /\
    exists ignore,
      calls vl' =
        calls sampleCore ++
        [Reset; InjectionPoint LOGGER_INJECTION_FIRST_SCANLINE] ++
        (m_queue sampleView ≫= layerDirectives) ++
        [IgnoreAfterInjection ignore; RunFrame] /\
      (Reset ∉ m_queue sampleView ≫= layerDirectives) /\
      (RunFrame ∉ m_queue sampleView ≫= layerDirectives).
Proof.
  exact (invalidateQueue_runs_one_frame sampleController noSize sampleView
           sampleCore eq_refl).
Defined.

Lemma unchecked_layer_stays_off_witness :
  m_disabled (updateTilesGBA sampleController
                (itemChanged sampleController 1 false sampleView)) =
    {[ id sampleBackground ]} ∪ m_disabled sampleView /\
  m_active (updateTilesGB sampleController
              (itemChanged sampleController 1 false sampleView)) =
    m_active sampleView /\
  forall l,
    l ∈ m_queue (updateTilesGBA sampleController
                   (itemChanged sampleController 1 false sampleView)) ->
    id l = id sampleBackground -> enabled l = false.
Proof.
  destruct (unchecked_layer_stays_off sampleController sampleController
              sampleView 1 sampleBackground eq_refl eq_refl)
    as (Hd & _ & _ & Hact & Hoff & _).
  split; [exact Hd|]. split; [exact Hact | exact Hoff].
Defined.

Lemma eventFilter_native_pixel_witness :
  eventFilter MouseButtonPress (QPointF.ofInts 7 6) sampleZoomedView =
    (selectLayer (QPointF.ofInts (7 / 2) (6 / 2)) sampleZoomedView, true) /\
  eventFilter MouseButtonDblClick (QPointF.ofInts 7 6) sampleZoomedView =
    (disableLayer (QPointF.ofInts (7 / 2) (6 / 2)) sampleZoomedView, true).
Proof.
  destruct (eventFilter_native_pixel sampleZoomedView 7 6)
    as (Hpress & Hdbl & _); [simpl; lia | lia | lia |].
  split; [exact Hpress | exact Hdbl].
Defined.

Lemma double_click_reaches_core_witness :
  exists layer vl',
    m_queue sampleView !! 1%nat = Some layer /\ enabled layer = true /\
    m_vl (glowTimeout sampleController
            (disableLayer (QPointF.ofInts 3 3) sampleView)) = Some vl' /\
    (LayerId.type (id layer) = LayerId.SPRITE ->
     InjectOAM (toU32 (Z.shiftl (LayerId.index (id layer)) 2)) 0x200
       ∈ sinceReset (calls vl')) /\
    (LayerId.type (id layer) = LayerId.BACKGROUND ->
     EnableVideoLayer (LayerId.index (id layer)) false
       ∈ sinceReset (calls vl')) /\
    m_glowFrame (glowTimeout sampleController
                   (disableLayer (QPointF.ofInts 3 3) sampleView))
      = m_glowFrame sampleView + 1.
Proof.
  exact (double_click_reaches_core sampleController sampleView
           (QPointF.ofInts 3 3) 1%nat sampleCore sample_lookup
           eq_refl eq_refl).
Defined.

Lemma currentItemChanged_highlights_witness :
  m_active (currentItemChanged sampleController (Some 0) sampleView)
    = id sampleSprite /\
  exists vl',
    m_vl (currentItemChanged sampleController (Some 0) sampleView)
      = Some vl' /\
    Renderer.highlightOBJ (renderer vl') !! 5%nat = Some true.
Proof.
  destruct (currentItemChanged_highlights sampleController sampleView
              sampleCore eq_refl sampleCore_wf eq_refl) as [Hrow _].
  destruct (Hrow 0 sampleSprite eq_refl) as (Hact & vl' & Hvl & _ & Hobj).
  { unfold indexInRange. simpl. lia. }
  split; [exact Hact|]. exists vl'. split; [exact Hvl|].
  exact (Hobj eq_refl).
Defined.

Lemma selectLayer_twice_witness :
  exists L, m_queue sampleView !! 1%nat = Some L /\
    m_active (selectLayer (QPointF.ofInts 3 3)
                (selectLayer (QPointF.ofInts 3 3) sampleView)) =
      (if bool_decide (id L = m_active sampleView)
       then id L else LayerId.none) /\
    m_glowFrame (selectLayer (QPointF.ofInts 3 3)
                   (selectLayer (QPointF.ofInts 3 3) sampleView)) = 0 /\
    m_queue (selectLayer (QPointF.ofInts 3 3)
               (selectLayer (QPointF.ofInts 3 3) sampleView))
      = m_queue sampleView /\
    m_disabled (selectLayer (QPointF.ofInts 3 3)
                  (selectLayer (QPointF.ofInts 3 3) sampleView))
      = m_disabled sampleView.
Proof.
  exact (selectLayer_twice sampleView (QPointF.ofInts 3 3) 1%nat
           sample_lookup).
Defined.

Lemma magnificationChanged_rescales_witness :
  ui_magnification
    (magnificationChanged sampleController 3
       (invalidateQueue sampleController noSize sampleView)) = 3 /\
  (exists core core',
     m_vl (invalidateQueue sampleController noSize sampleView) = Some core /\
     m_vl (magnificationChanged sampleController 3
             (invalidateQueue sampleController noSize sampleView))
       = Some core' /\
     videoLog core' = videoLog core /\
     calls core' =
       calls core ++ [Reset] ++
       passCalls (platform sampleController) sampleView ++ [RunFrame]) /\
  m_framebuffer
    (magnificationChanged sampleController 3
       (invalidateQueue sampleController noSize sampleView)) =
  m_framebuffer (invalidateQueue sampleController noSize sampleView) /\
  m_queue
    (magnificationChanged sampleController 3
       (invalidateQueue sampleController noSize sampleView))
    = m_queue sampleView.
Proof.
  destruct (magnificationChanged_rescales sampleController sampleController
              sampleView sampleCore (sampleImage 240 160) 3
              eq_refl eq_refl sampleCore_wf eq_refl)
    as (Hk & Hcore & Hfb & _ & _ & _ & Hq & _).
  split; [exact Hk|]. split; [exact Hcore|].
  split; [exact Hfb | exact Hq].
Defined.
